(** * aifellaweb: the task-progression state machine of [src/app/page.js]

    The page component keeps the task session in React state cells and
    changes it from four asynchronous handlers ([startTask], [verifyStep],
    [doneStep], [applyOption]).  Each handler is embedded as a value of
    type [Handler]: either it returns at once, or it performs one [fetch]
    and resumes with the outcome.  A handler reads the state cells through
    the closure of the render that created it (the snapshot [c]); its
    setter calls land on the live state, and updater callbacks
    ([setHistory(h => ...)], [setSteps(s => ...)]) read the live state. *)

From Stdlib Require Import String Ascii List ZArith Bool Lia.
From Stdlib Require Import DecimalString DecimalN.
Import ListNotations.

Local Open Scope string_scope.
Local Open Scope Z_scope.
Local Open Scope list_scope.

(** ** JavaScript primitives used by the handlers *)

Module JS.

(** A JavaScript string is kept as its UTF-8 encoding, the bytes that a
    string literal of this file holds.  The encoding is injective and
    commutes with concatenation, so equality, emptiness and [+] on
    strings are those of the encodings; [trim] removes encoded code
    points. *)
Definition code (c : ascii) : N := N_of_ascii c.

(** The WhiteSpace and LineTerminator code points of ECMAScript encoded on
    one byte: U+0009 TAB, U+000A LF, U+000B VT, U+000C FF, U+000D CR and
    U+0020 SPACE. *)
Definition isWhiteSpace1 (a : ascii) : bool :=
  ((9 <=? code a) && (code a <=? 13) || (code a =? 32))%N.

(** ... on two bytes: U+00A0 NO-BREAK SPACE (C2 A0). *)
Definition isWhiteSpace2 (a b : ascii) : bool :=
  ((code a =? 194) && (code b =? 160))%N.

(** ... on three bytes: U+1680 (E1 9A 80), U+2000 to U+200A (E2 80 80 to
    E2 80 8A), U+2028 and U+2029 (E2 80 A8, E2 80 A9), U+202F (E2 80 AF),
    U+205F (E2 81 9F), U+3000 (E3 80 80) and U+FEFF (EF BB BF). *)
Definition isWhiteSpace3 (a b c : ascii) : bool :=
  ((code a =? 225) && (code b =? 154) && (code c =? 128)
   || (code a =? 226) && (code b =? 128) &&
      ((128 <=? code c) && (code c <=? 138)
       || (code c =? 168) || (code c =? 169) || (code c =? 175))
   || (code a =? 226) && (code b =? 129) && (code c =? 159)
   || (code a =? 227) && (code b =? 128) && (code c =? 128)
   || (code a =? 239) && (code b =? 187) && (code c =? 191))%N.

(** Removes the white space code points a text begins with. *)
Fixpoint dropWhiteSpace (l : list ascii) : list ascii :=
  match l with
  | [] => []
  | a :: l1 =>
      if isWhiteSpace1 a then dropWhiteSpace l1
      else
        match l1 with
        | [] => l
        | b :: l2 =>
            if isWhiteSpace2 a b then dropWhiteSpace l2
            else
              match l2 with
              | [] => l
              | c :: l3 => if isWhiteSpace3 a b c then dropWhiteSpace l3 else l
              end
        end
  end.

(** The same on a text read backwards: removes the white space code
    points the text ends with. *)
Fixpoint dropWhiteSpaceBack (l : list ascii) : list ascii :=
  match l with
  | [] => []
  | c :: l1 =>
      if isWhiteSpace1 c then dropWhiteSpaceBack l1
      else
        match l1 with
        | [] => l
        | b :: l2 =>
            if isWhiteSpace2 b c then dropWhiteSpaceBack l2
            else
              match l2 with
              | [] => l
              | a :: l3 => if isWhiteSpace3 a b c then dropWhiteSpaceBack l3 else l
              end
        end
  end.

Definition trimStart (s : string) : string :=
  string_of_list_ascii (dropWhiteSpace (list_ascii_of_string s)).

Definition trimEnd (s : string) : string :=
  string_of_list_ascii
    (rev (dropWhiteSpaceBack (rev (list_ascii_of_string s)))).

(** [String.prototype.trim] *)
Definition trim (s : string) : string := trimEnd (trimStart s).

(** ToBoolean on a string: only the empty string is falsy. *)
Definition truthy (s : string) : bool := negb (s =? "")%string.

(** [x || y] where [x] is a possibly absent string. *)
Definition orElse (x : option string) (y : string) : string :=
  match x with
  | Some s => if truthy s then s else y
  | None => y
  end.

(** [x || y] where [x] is a possibly absent array (an array is truthy). *)
Definition orElseArr {A : Type} (x : option (list A)) (y : list A) : list A :=
  match x with
  | Some l => l
  | None => y
  end.

(** [Array.isArray(x) ? x : []] *)
Definition arrayOrEmpty {A : Type} (x : option (list A)) : list A :=
  orElseArr x [].

(** ToBoolean on a possibly absent object (a [File] is truthy). *)
Definition present {A : Type} (x : option A) : bool :=
  match x with
  | Some _ => true
  | None => false
  end.

(** [a[i]]: [undefined] outside the array. *)
Definition get (a : list string) (i : Z) : option string :=
  if i <? 0 then None else nth_error a (Z.to_nat i).

Fixpoint indexOfFrom (a : list string) (x : string) (i : Z) : Z :=
  match a with
  | [] => -1
  | y :: a' => if (y =? x)%string then i else indexOfFrom a' x (i + 1)
  end.

(** [a.indexOf(x)]: first position of [x], or -1. *)
Definition indexOf (a : list string) (x : string) : Z := indexOfFrom a x 0.

(** [a.includes(x)] *)
Definition includes (a : list string) (x : string) : bool :=
  existsb (fun y => (y =? x)%string) a.

End JS.

(** ** Data model *)

(** A [File] picked by the user or produced by the camera; only its
    identity matters here. *)
Record File := { fileName : string }.

Record EvidenceShape := {
  ev_text : option string;   (* textNote || null *)
  ev_image : bool            (* image ? true : false *)
}.

Record StepResult := {
  res_passed : bool;
  res_reason : option string
}.

Record HistoryEntry := {
  h_step : string;
  h_evidence : EvidenceShape;
  h_result : StepResult;
  h_ts : string
}.

(** The JSON object of a gateway response.  A field that is absent (or
    not of the expected kind) is [None]; [done] and [passed] are kept as
    their truth value, which is all the handlers look at. *)
Record Data := {
  d_error : option string;
  d_taskId : option string;
  d_goal : option string;
  d_steps : option (list string);
  d_currentStep : option string;
  d_done : bool;
  d_message : option string;
  d_history : option (list HistoryEntry);
  d_passed : bool;
  d_reason : option string;
  d_nextSteps : option (list string);
  d_nextStep : option string;
  d_options : option (list string)
}.

(** What awaiting [fetch(...)] followed by [res.json()] yields. *)
Inductive Outcome :=
| Rejected                                   (* transport failure, or a body that is not JSON *)
| Response (ok : bool) (data : option Data). (* [res.ok] and the parsed body; [None] is JSON null *)

Inductive Request :=
| PostStartTask (task : string)
| PostVerifyStep (taskId : string) (image : option File) (textNote : option string)
| PostMarkStepDone (taskId : string)
| PostApplyAction (action taskId : string).

(** The state cells of the component (camera cells left out). *)
Record State := {
  task : string;
  goal : string;
  taskId : string;
  steps : list string;
  currentStep : string;
  currentIndex : Z;
  history : list HistoryEntry;
  image : option File;
  textNote : string;
  message : string;
  options : list string;
  loading : bool
}.

Definition initial : State :=
  {| task := ""; goal := ""; taskId := ""; steps := []; currentStep := "";
     currentIndex := 0; history := []; image := None; textNote := "";
     message := ""; options := []; loading := false |}.

Definition Update := State -> State.

(** The setters returned by [useState]. *)
Definition setTask (v : string) : Update := fun s =>
  {| task := v; goal := goal s; taskId := taskId s; steps := steps s;
     currentStep := currentStep s; currentIndex := currentIndex s;
     history := history s; image := image s; textNote := textNote s;
     message := message s; options := options s; loading := loading s |}.

Definition setGoal (v : string) : Update := fun s =>
  {| task := task s; goal := v; taskId := taskId s; steps := steps s;
     currentStep := currentStep s; currentIndex := currentIndex s;
     history := history s; image := image s; textNote := textNote s;
     message := message s; options := options s; loading := loading s |}.

Definition setTaskId (v : string) : Update := fun s =>
  {| task := task s; goal := goal s; taskId := v; steps := steps s;
     currentStep := currentStep s; currentIndex := currentIndex s;
     history := history s; image := image s; textNote := textNote s;
     message := message s; options := options s; loading := loading s |}.

(** [setSteps] with an updater callback; [setSteps v] is the constant one. *)
Definition updSteps (f : list string -> list string) : Update := fun s =>
  {| task := task s; goal := goal s; taskId := taskId s; steps := f (steps s);
     currentStep := currentStep s; currentIndex := currentIndex s;
     history := history s; image := image s; textNote := textNote s;
     message := message s; options := options s; loading := loading s |}.

Definition setSteps (v : list string) : Update := updSteps (fun _ => v).

Definition setCurrentStep (v : string) : Update := fun s =>
  {| task := task s; goal := goal s; taskId := taskId s; steps := steps s;
     currentStep := v; currentIndex := currentIndex s;
     history := history s; image := image s; textNote := textNote s;
     message := message s; options := options s; loading := loading s |}.

Definition setCurrentIndex (v : Z) : Update := fun s =>
  {| task := task s; goal := goal s; taskId := taskId s; steps := steps s;
     currentStep := currentStep s; currentIndex := v;
     history := history s; image := image s; textNote := textNote s;
     message := message s; options := options s; loading := loading s |}.

(** [setHistory] with an updater callback; [setHistory v] is the constant one. *)
Definition updHistory (f : list HistoryEntry -> list HistoryEntry) : Update := fun s =>
  {| task := task s; goal := goal s; taskId := taskId s; steps := steps s;
     currentStep := currentStep s; currentIndex := currentIndex s;
     history := f (history s); image := image s; textNote := textNote s;
     message := message s; options := options s; loading := loading s |}.

Definition setHistory (v : list HistoryEntry) : Update := updHistory (fun _ => v).

Definition setImage (v : option File) : Update := fun s =>
  {| task := task s; goal := goal s; taskId := taskId s; steps := steps s;
     currentStep := currentStep s; currentIndex := currentIndex s;
     history := history s; image := v; textNote := textNote s;
     message := message s; options := options s; loading := loading s |}.

Definition setTextNote (v : string) : Update := fun s =>
  {| task := task s; goal := goal s; taskId := taskId s; steps := steps s;
     currentStep := currentStep s; currentIndex := currentIndex s;
     history := history s; image := image s; textNote := v;
     message := message s; options := options s; loading := loading s |}.

Definition setMessage (v : string) : Update := fun s =>
  {| task := task s; goal := goal s; taskId := taskId s; steps := steps s;
     currentStep := currentStep s; currentIndex := currentIndex s;
     history := history s; image := image s; textNote := textNote s;
     message := v; options := options s; loading := loading s |}.

Definition setOptions (v : list string) : Update := fun s =>
  {| task := task s; goal := goal s; taskId := taskId s; steps := steps s;
     currentStep := currentStep s; currentIndex := currentIndex s;
     history := history s; image := image s; textNote := textNote s;
     message := message s; options := v; loading := loading s |}.

Definition setLoading (v : bool) : Update := fun s =>
  {| task := task s; goal := goal s; taskId := taskId s; steps := steps s;
     currentStep := currentStep s; currentIndex := currentIndex s;
     history := history s; image := image s; textNote := textNote s;
     message := message s; options := options s; loading := v |}.

(** Setter calls issued one after the other, in source order. *)
Definition batch (us : list Update) : Update :=
  fun s => fold_left (fun acc u => u acc) us s.

(** An async handler: it either returns before any request, or applies
    [before], sends [rq], and applies [after outcome now] when the request
    settles ([now] is what [new Date().toISOString()] reads then). *)
Inductive Handler :=
| Return (upd : Update)
| Fetch (before : Update) (rq : Request) (after : Outcome -> string -> Update).

(** ** The handlers *)

(** [startTask(e)] *)
Definition startTask (c : State) : Handler :=
  if negb (JS.truthy (JS.trim (task c))) then Return (batch [])
  else
    Fetch
      (batch [setLoading true; setMessage ""; setTaskId ""])
      (PostStartTask (task c))
      (fun o _ =>
         batch
           (match o with
            | Response true (Some d) =>
                [ setTaskId (JS.orElse (d_taskId d) "");
                  setGoal (JS.orElse (d_goal d) (task c));
                  setSteps (JS.arrayOrEmpty (d_steps d));
                  setCurrentIndex 0;
                  setCurrentStep
                    (JS.orElse (d_currentStep d)
                       (JS.orElse (match d_steps d with
                                   | Some l => JS.get l 0
                                   | None => None
                                   end) ""));
                  setHistory [];
                  setMessage "Task started. Follow the steps.";
                  setOptions [] ]
            | _ => [ setMessage "Error starting task" ]
            end ++ [ setLoading false ])).

(** The evidence check at the head of [verifyStep]:
    [!image && !textNote.trim()]. *)
Definition missingEvidence (c : State) : bool :=
  negb (JS.present (image c)) && negb (JS.truthy (JS.trim (textNote c))).

(** The entry [verifyStep] appends for the attempt just made. *)
Definition attemptEntry (c : State) (d : Data) (now : string) : HistoryEntry :=
  {| h_step := currentStep c;
     h_evidence :=
       {| ev_text := if JS.truthy (textNote c) then Some (textNote c) else None;
          ev_image := JS.present (image c) |};
     h_result := {| res_passed := d_passed d; res_reason := d_reason d |};
     h_ts := now |}.

(** [verifyStep], from [if (data.done)] to the end of the [try] block. *)
Definition verifyStep_handle (c : State) (d : Data) (now : string) : list Update :=
  (if d_done d then
     [ setMessage (JS.orElse (d_message d) "All steps completed!");
       setHistory (JS.orElseArr (d_history d) (history c));
       setSteps [];
       setCurrentStep "";
       setCurrentIndex 0;
       setOptions [] ]
   else
     updHistory (fun h => h ++ [attemptEntry c d now]) ::
     (if d_passed d then
        let increment :=
          let ni := currentIndex c + 1 in
          [ setCurrentIndex ni; setCurrentStep (JS.orElse (JS.get (steps c) ni) "") ] in
        (match d_nextSteps d with
         | Some nextSteps =>
             [ setSteps nextSteps;
               setCurrentIndex 0;
               setCurrentStep (JS.orElse (JS.get nextSteps 0) "") ]
         | None =>
             match d_nextStep d with
             | Some nextStep =>
                 if JS.truthy nextStep then
                   let nextIndex := JS.indexOf (steps c) nextStep in
                   if nextIndex >=? 0 then
                     [ setCurrentIndex nextIndex; setCurrentStep nextStep ]
                   else
                     [ updSteps (fun s =>
                                   if negb (JS.includes s nextStep)
                                   then s ++ [nextStep] else s);
                       setCurrentStep (JS.orElse (d_nextStep d) "") ]
                 else increment
             | None => increment
             end
         end)
        ++ [ setMessage ("✅ " ++ JS.orElse (d_reason d) "Step passed")%string ]
      else
        setMessage ("❌ " ++ JS.orElse (d_reason d) "Step not satisfied")%string ::
        (match d_nextSteps d with
         | Some nextSteps =>
             [ setSteps nextSteps;
               setCurrentIndex 0;
               setCurrentStep (JS.orElse (JS.get nextSteps 0) "") ]
         | None => []
         end)
        ++ [ setOptions (JS.arrayOrEmpty (d_options d)) ]))
  ++ (if d_passed d then [ setImage None; setTextNote "" ] else []).

(** What [verifyStep] does once the request has settled.  The status is
    not looked at when the body is an object ([if (!res.ok && !data) throw]);
    a null body ends in the [catch] block either way, by the [throw] or by
    reading [data.done]. *)
Definition verifyStep_after (c : State) (o : Outcome) (now : string) : Update :=
  batch
    (match o with
     | Response _ (Some d) => verifyStep_handle c d now
     | _ => [ setMessage "Error verifying step" ]
     end ++ [ setLoading false ]).

(** [verifyStep()] *)
Definition verifyStep (c : State) : Handler :=
  if missingEvidence c then
    Return (batch [ setMessage "Please provide an image or a text note." ])
  else
    Fetch
      (batch [setLoading true; setMessage ""; setOptions []])
      (PostVerifyStep (taskId c) (image c)
         (if JS.truthy (JS.trim (textNote c)) then Some (JS.trim (textNote c)) else None))
      (verifyStep_after c).

(** The entry [doneStep] appends. *)
Definition doneEntry (c : State) (now : string) : HistoryEntry :=
  {| h_step := currentStep c;
     h_evidence :=
       {| ev_text := Some "Step marked as done without verification";
          ev_image := false |};
     h_result := {| res_passed := true; res_reason := Some "Step marked as done" |};
     h_ts := now |}.

(** [doneStep], from [if (data.done)] to the end of the [try] block. *)
Definition doneStep_handle (c : State) (d : Data) (now : string) : list Update :=
  (if d_done d then
     [ setMessage (JS.orElse (d_message d) "All steps completed!");
       setHistory (JS.orElseArr (d_history d) (history c));
       setSteps [];
       setCurrentStep "";
       setCurrentIndex 0;
       setOptions [] ]
   else
     let ni := currentIndex c + 1 in
     [ updHistory (fun h => h ++ [doneEntry c now]);
       setCurrentIndex ni;
       setCurrentStep (JS.orElse (JS.get (steps c) ni) "");
       setMessage "✅ Step marked as done" ])
  ++ [ setImage None; setTextNote "" ].

(** What [doneStep] does once the request has settled; an error status
    throws before anything is reconciled. *)
Definition doneStep_after (c : State) (o : Outcome) (now : string) : Update :=
  batch
    (match o with
     | Response true (Some d) => doneStep_handle c d now
     | _ => [ setMessage "Error marking step as done" ]
     end ++ [ setLoading false ]).

(** [doneStep()] *)
Definition doneStep (c : State) : Handler :=
  Fetch
    (batch [setLoading true; setMessage ""; setOptions []])
    (PostMarkStepDone (taskId c))
    (doneStep_after c).

(** [applyOption], from [if (opt === "quit")] to the end of the [try] block. *)
Definition applyOption_handle (opt : string) (d : Data) : list Update :=
  if (opt =? "quit")%string then
    [ setMessage (JS.orElse (d_message d) "Task quit");
      setGoal "";
      setTaskId "";
      setSteps [];
      setCurrentStep "";
      setCurrentIndex 0;
      setHistory [];
      setOptions [] ]
  else if (opt =? "restart")%string then
    [ setSteps (JS.arrayOrEmpty (d_steps d));
      setCurrentStep
        (JS.orElse (d_currentStep d)
           (JS.orElse (match d_steps d with
                       | Some l => JS.get l 0
                       | None => None
                       end) ""));
      setCurrentIndex 0;
      setHistory [];
      setMessage "Task restarted with new plan";
      setOptions [] ]
  else
    [ setMessage (JS.orElse (d_message d) ("Action applied: " ++ opt)%string) ].

(** What [applyOption] does once the request has settled. *)
Definition applyOption_after (opt : string) (o : Outcome) : Update :=
  batch
    (match o with
     | Response true (Some d) => applyOption_handle opt d
     | _ => [ setMessage "Error applying action" ]
     end ++ [ setLoading false ]).

(** [applyOption(opt)] *)
Definition applyOption (opt : string) (c : State) : Handler :=
  if negb (JS.truthy opt) then Return (batch [])
  else
    Fetch
      (batch [setLoading true; setMessage ""])
      (PostApplyAction opt (taskId c))
      (fun o _ => applyOption_after opt o).

(** ** Running the component *)

(** One uninterrupted invocation: the handler closes over the state it is
    called in, and its request settles with [o] at time [now]. *)
Definition run (h : State -> Handler) (o : Outcome) (now : string) (s : State) : State :=
  match h s with
  | Return upd => upd s
  | Fetch before _ after => after o now (before s)
  end.

(** The request an invocation sends, if any. *)
Definition sent (h : State -> Handler) (s : State) : option Request :=
  match h s with
  | Return _ => None
  | Fetch _ rq _ => Some rq
  end.

(** What the user can do to the page. *)
Inductive Event :=
| EvSetTask (v : string)                       (* typing in the goal input *)
| EvSetTextNote (v : string)                   (* typing in the text-proof input *)
| EvSetImage (f : option File)                 (* file input, capture, retake *)
| EvStartTask (o : Outcome)
| EvVerifyStep (o : Outcome) (now : string)
| EvDoneStep (o : Outcome) (now : string)
| EvApplyOption (opt : string) (o : Outcome).

Definition step (s : State) (e : Event) : State :=
  match e with
  | EvSetTask v => setTask v s
  | EvSetTextNote v => setTextNote v s
  | EvSetImage f => setImage f s
  | EvStartTask o => run startTask o "" s
  | EvVerifyStep o now => run verifyStep o now s
  | EvDoneStep o now => run doneStep o now s
  | EvApplyOption opt o => run (applyOption opt) o "" s
  end.

Definition exec (s : State) (es : list Event) : State := fold_left step es s.

(** Which controls the rendered page offers in state [s]: the goal form
    when there is no goal, the evidence inputs and the Verify / Done /
    Restart / Quit buttons when there is a goal and a current step, one
    button per suggested option; buttons are disabled while loading. *)
Definition offered (s : State) (e : Event) : bool :=
  match e with
  | EvSetTask _ => negb (JS.truthy (goal s))
  | EvStartTask _ => negb (JS.truthy (goal s)) && negb (loading s)
  | EvSetTextNote _ | EvSetImage _ =>
      JS.truthy (goal s) && JS.truthy (currentStep s)
  | EvVerifyStep _ _ | EvDoneStep _ _ =>
      JS.truthy (goal s) && JS.truthy (currentStep s) && negb (loading s)
  | EvApplyOption opt _ =>
      JS.truthy (goal s) && negb (loading s) &&
      (JS.truthy (currentStep s) && ((opt =? "restart")%string || (opt =? "quit")%string)
       || JS.includes (options s) opt)
  end.

Fixpoint reachable_by (s : State) (es : list Event) : bool :=
  match es with
  | [] => true
  | e :: es' => offered s e && reachable_by (step s e) es'
  end.

(** The task-session part of the state (everything but the form inputs,
    the display message and the busy flag). *)
Definition sameSession (a b : State) : Prop :=
  goal a = goal b /\ taskId a = taskId b /\ steps a = steps b /\
  currentStep a = currentStep b /\ currentIndex a = currentIndex b /\
  history a = history b /\ options a = options b.

(** ** Sample data: the tea scenario *)

Module Tea.

(** The empty JSON object. *)
Definition emptyObject : Data :=
  {| d_error := None; d_taskId := None; d_goal := None; d_steps := None;
     d_currentStep := None; d_done := false; d_message := None;
     d_history := None; d_passed := false; d_reason := None;
     d_nextSteps := None; d_nextStep := None; d_options := None |}.

Definition started : Data :=
  {| d_error := None; d_taskId := Some "t1"; d_goal := Some "make tea";
     d_steps := Some ["boil water"; "steep tea"; "serve"];
     d_currentStep := Some "boil water"; d_done := false; d_message := None;
     d_history := None; d_passed := false; d_reason := None;
     d_nextSteps := None; d_nextStep := None; d_options := None |}.

(** A start response that carries no task id. *)
Definition anonymous : Data :=
  {| d_error := None; d_taskId := None; d_goal := Some "make tea";
     d_steps := Some ["boil water"; "steep tea"; "serve"];
     d_currentStep := None; d_done := false; d_message := None;
     d_history := None; d_passed := false; d_reason := None;
     d_nextSteps := None; d_nextStep := None; d_options := None |}.

(** A verify response: [{passed, reason, nextStep, options}]. *)
Definition verdict (passed : bool) (reason : string) (nextStep : option string)
    (opts : option (list string)) : Data :=
  {| d_error := None; d_taskId := None; d_goal := None; d_steps := None;
     d_currentStep := None; d_done := false; d_message := None;
     d_history := None; d_passed := passed; d_reason := Some reason;
     d_nextSteps := None; d_nextStep := nextStep; d_options := opts |}.

(** A verify response carrying a re-plan: [{passed, nextSteps}]. *)
Definition replan (passed : bool) (nextSteps : list string) : Data :=
  {| d_error := None; d_taskId := None; d_goal := None; d_steps := None;
     d_currentStep := None; d_done := false; d_message := None;
     d_history := None; d_passed := passed; d_reason := None;
     d_nextSteps := Some nextSteps; d_nextStep := None; d_options := None |}.

(** A completion response: [{done: true, passed, nextStep, history}]. *)
Definition completed (passed : bool) (nextStep : option string)
    (hist : option (list HistoryEntry)) : Data :=
  {| d_error := None; d_taskId := None; d_goal := None; d_steps := None;
     d_currentStep := None; d_done := true; d_message := None;
     d_history := hist; d_passed := passed; d_reason := None;
     d_nextSteps := None; d_nextStep := nextStep; d_options := None |}.

(** The page after the goal was typed and the task started. *)
Definition begun : State :=
  exec initial [ EvSetTask "I want to make tea";
                 EvStartTask (Response true (Some started)) ].

(** ... and after a text proof for the first step passed. *)
Definition boiled : State :=
  exec begun [ EvSetTextNote "kettle is whistling";
               EvVerifyStep (Response true (Some (verdict true "water is boiling" None None)))
                            "2025-01-01T10:00:00.000Z" ].

End Tea.

(** ** Vocabulary of the properties *)

(** A text made of white space code points only (possibly none). *)
Fixpoint allWhiteSpace (l : list ascii) : bool :=
  match l with
  | [] => true
  | a :: l1 =>
      if JS.isWhiteSpace1 a then allWhiteSpace l1
      else
        match l1 with
        | [] => false
        | b :: l2 =>
            if JS.isWhiteSpace2 a b then allWhiteSpace l2
            else
              match l2 with
              | [] => false
              | c :: l3 => JS.isWhiteSpace3 a b c && allWhiteSpace l3
              end
        end
  end.

(** A text note that is empty or made of white space only. *)
Definition blank (s : string) : bool := allWhiteSpace (list_ascii_of_string s).

(** A text that is a sequence of encoded white space code points. *)
Inductive WhiteSpaces : list ascii -> Prop :=
| WhiteSpaces_nil : WhiteSpaces []
| WhiteSpaces_1 a l :
    JS.isWhiteSpace1 a = true -> WhiteSpaces l -> WhiteSpaces (a :: l)
| WhiteSpaces_2 a b l :
    JS.isWhiteSpace2 a b = true -> WhiteSpaces l -> WhiteSpaces (a :: b :: l)
| WhiteSpaces_3 a b c l :
    JS.isWhiteSpace3 a b c = true -> WhiteSpaces l -> WhiteSpaces (a :: b :: c :: l).

(** Texts outside ASCII used in the examples, by their UTF-8 bytes. *)
Module Utf8.

(** U+3000 IDEOGRAPHIC SPACE *)
Definition ideographicSpace : string :=
  String "227" (String "128" (String "128" "")).

(** U+00A0 NO-BREAK SPACE *)
Definition noBreakSpace : string := String "194" (String "160" "").

(** U+FEFF followed by U+2028 *)
Definition markAndLineSeparator : string :=
  String "239" (String "187" (String "191"
    (String "226" (String "128" (String "168" ""))))).

(** "voil" followed by U+00E0 (C3 A0) *)
Definition voila : string := ("voil" ++ String "195" (String "160" ""))%string.

End Utf8.

(** The form inputs as the user left them. *)
Definition withEvidence (f : option File) (t : string) (s : State) : State :=
  setTextNote t (setImage f s).

(** [x] is the element of [a] at position [i], and at no earlier position. *)
Definition firstAt (a : list string) (x : string) (i : Z) : Prop :=
  JS.get a i = Some x /\ forall j, 0 <= j < i -> JS.get a j <> Some x.

(** The element read by [a[i] || ""]. *)
Definition elementOrEmpty (a : list string) (i : Z) : string :=
  match JS.get a i with
  | Some x => x
  | None => ""
  end.

(** Events after which the stored history need not extend the old one:
    a start, restart or quit that the gateway accepted, and a completion
    response that carries the service's own history. *)
Definition replacesHistory (e : Event) : bool :=
  match e with
  | EvStartTask (Response true (Some _)) => true
  | EvVerifyStep (Response _ (Some d)) _ => d_done d && JS.present (d_history d)
  | EvDoneStep (Response true (Some d)) _ => d_done d && JS.present (d_history d)
  | EvApplyOption opt (Response true (Some _)) =>
      (opt =? "quit")%string || (opt =? "restart")%string
  | _ => false
  end.

(** ** The camera: cells, device and handlers *)

(** A track of a [MediaStream], by identity. *)
Definition Track := nat.

Record MediaStream := { getTracks : list Track }.

(** The [<video>] element behind [videoRef]. *)
Record VideoElement := { srcObject : option MediaStream }.

(** The camera state cells of the component. *)
Record Camera := {
  cameraActive : bool;
  cameraStream : option MediaStream;
  capturedImage : option File;
  useCamera : bool;
  cameraError : string
}.

(** The whole page: the session cells, the camera cells, what the two
    refs point at ([None] and [false] while the elements are not
    rendered) and the device tracks that are running. *)
Record Page := {
  session : State;
  camera : Camera;
  video : option VideoElement;   (* videoRef.current *)
  canvas : bool;                 (* canvasRef.current is set *)
  live : list Track;
  pendingCamera : nat            (* getUserMedia requests not settled yet *)
}.

Definition initialCamera : Camera :=
  {| cameraActive := false; cameraStream := None; capturedImage := None;
     useCamera := false; cameraError := "" |}.

Definition initialPage : Page :=
  {| session := initial; camera := initialCamera; video := None;
     canvas := false; live := []; pendingCamera := 0 |}.

Definition PageUpdate := Page -> Page.

Definition onSession (u : Update) : PageUpdate := fun p =>
  {| session := u (session p); camera := camera p; video := video p;
     canvas := canvas p; live := live p; pendingCamera := pendingCamera p |}.

Definition onCamera (u : Camera -> Camera) : PageUpdate := fun p =>
  {| session := session p; camera := u (camera p); video := video p;
     canvas := canvas p; live := live p; pendingCamera := pendingCamera p |}.

Definition onLive (u : list Track -> list Track) : PageUpdate := fun p =>
  {| session := session p; camera := camera p; video := video p;
     canvas := canvas p; live := u (live p); pendingCamera := pendingCamera p |}.

Definition onPending (u : nat -> nat) : PageUpdate := fun p =>
  {| session := session p; camera := camera p; video := video p;
     canvas := canvas p; live := live p; pendingCamera := u (pendingCamera p) |}.

(** [if (videoRef.current) videoRef.current.srcObject = v] *)
Definition assignSrcObject (v : option MediaStream) : PageUpdate := fun p =>
  {| session := session p; camera := camera p;
     video := match video p with
              | Some _ => Some {| srcObject := v |}
              | None => None
              end;
     canvas := canvas p; live := live p; pendingCamera := pendingCamera p |}.

Definition setCameraActive (v : bool) : PageUpdate := onCamera (fun c =>
  {| cameraActive := v; cameraStream := cameraStream c;
     capturedImage := capturedImage c; useCamera := useCamera c;
     cameraError := cameraError c |}).

Definition setCameraStream (v : option MediaStream) : PageUpdate := onCamera (fun c =>
  {| cameraActive := cameraActive c; cameraStream := v;
     capturedImage := capturedImage c; useCamera := useCamera c;
     cameraError := cameraError c |}).

Definition setCapturedImage (v : option File) : PageUpdate := onCamera (fun c =>
  {| cameraActive := cameraActive c; cameraStream := cameraStream c;
     capturedImage := v; useCamera := useCamera c;
     cameraError := cameraError c |}).

Definition setUseCamera (v : bool) : PageUpdate := onCamera (fun c =>
  {| cameraActive := cameraActive c; cameraStream := cameraStream c;
     capturedImage := capturedImage c; useCamera := v;
     cameraError := cameraError c |}).

Definition setCameraError (v : string) : PageUpdate := onCamera (fun c =>
  {| cameraActive := cameraActive c; cameraStream := cameraStream c;
     capturedImage := capturedImage c; useCamera := useCamera c;
     cameraError := v |}).

Definition pageBatch (us : list PageUpdate) : PageUpdate :=
  fun p => fold_left (fun acc u => u acc) us p.

(** [stream.getTracks().forEach(track => track.stop())] on the device. *)
Definition stopTracks (stream : MediaStream) : PageUpdate :=
  onLive (filter (fun t => negb (existsb (Nat.eqb t) (getTracks stream)))).

(** What the browser answers when [startCamera] asks for the camera. *)
Inductive MediaOutcome :=
| NoMediaDevices                              (* navigator.mediaDevices is missing *)
| GetUserMediaRejected (name : string)        (* the promise rejects with [err.name] *)
| GetUserMediaResolved (stream : MediaStream).

(** The message chosen in the [catch] block of [startCamera]. *)
Definition errorMessage (name : string) : string :=
  if (name =? "NotAllowedError")%string then
    "Camera access denied. Please allow camera permissions."
  else if (name =? "NotFoundError")%string || (name =? "OverconstrainedError")%string then
    "No camera found or camera not compatible."
  else if (name =? "NotReadableError")%string then
    "Camera is being used by another application."
  else if (name =? "AbortError")%string then
    "Camera access was aborted."
  else "Could not access camera. Please check permissions.".

(** How a pending [getUserMedia] request settles. *)
Inductive MediaAnswer :=
| Rejects (name : string)            (* the promise rejects with [err.name] *)
| Resolves (stream : MediaStream).   (* the stream's tracks have been started *)

(** The [catch] block of [startCamera] for an error named [name]. *)
Definition startCamera_catch (name : string) : list PageUpdate :=
  [ setCameraError (errorMessage name); setUseCamera false ].

(** [startCamera()] up to its [await]: without the media devices API the
    [catch] block runs at once ([new Error(...)].name is "Error");
    otherwise the request goes out and the handler is suspended. *)
Definition startCamera_call (supported : bool) : PageUpdate :=
  pageBatch
    (setCameraError "" ::
     (if supported then [ onPending S ] else startCamera_catch "Error")).

(** [startCamera()] from its [await] on, when its request settles;
    [videoRef.current] is read at that moment. *)
Definition startCamera_resume (answer : MediaAnswer) : PageUpdate :=
  pageBatch
    (onPending Nat.pred ::
     match answer with
     | Rejects name => startCamera_catch name
     | Resolves stream =>
         [ onLive (fun l => l ++ getTracks stream);
           setCameraStream (Some stream);
           setCameraActive true;
           assignSrcObject (Some stream) ]
     end).

(** [startCamera()] when its request is answered before anything else
    happens on the page: the call and its resumption in one piece. *)
Definition startCamera (o : MediaOutcome) : PageUpdate :=
  let failed (name : string) :=
    [ setCameraError (errorMessage name); setUseCamera false ] in
  pageBatch
    (setCameraError "" ::
     match o with
     | NoMediaDevices => failed "Error"   (* [new Error(...)].name *)
     | GetUserMediaRejected name => failed name
     | GetUserMediaResolved stream =>
         [ onLive (fun l => l ++ getTracks stream);
           setCameraStream (Some stream);
           setCameraActive true;
           assignSrcObject (Some stream) ]
     end).

(** [stopCamera()], called from a render whose cells are [c]. *)
Definition stopCamera (c : Camera) : PageUpdate :=
  pageBatch
    (match cameraStream c with
     | Some stream => [ stopTracks stream; setCameraStream None ]
     | None => []
     end ++ [ setCameraActive false; assignSrcObject None ]).

(** [String(n)] for a non-negative integer. *)
Definition decimal (n : N) : string := NilEmpty.string_of_uint (N.to_uint n).

(** The [File] built in the [toBlob] callback. *)
Definition capturedFile (timestamp : N) : File :=
  {| fileName := ("captured-image-" ++ decimal timestamp ++ ".jpg")%string |}.

(** [captureImage()]; [blob] is what [canvas.toBlob] hands to the callback
    ([false] for null) and [timestamp] what [new Date().getTime()] reads. *)
Definition captureImage (blob : bool) (timestamp : N) : PageUpdate := fun p =>
  match video p with
  | Some _ =>
      if canvas p then
        if blob then
          pageBatch [ setCapturedImage (Some (capturedFile timestamp));
                      onSession (setImage (Some (capturedFile timestamp))) ] p
        else p
      else p
  | None => p
  end.

(** The [onClick] of the Upload Image toggle. *)
Definition clickUploadImage (c : Camera) : PageUpdate :=
  pageBatch
    [ setUseCamera false;
      (if cameraActive c then stopCamera c else pageBatch []);
      setCapturedImage None ].

(** The [onClick] of the Use Camera toggle. *)
Definition clickUseCamera (c : Camera) (supported : bool) : PageUpdate :=
  pageBatch
    [ setUseCamera true;
      (if negb (cameraActive c) then startCamera_call supported else pageBatch []);
      onSession (setImage None) ].

(** The [onClick] of the Retake button. *)
Definition clickRetake : PageUpdate :=
  pageBatch [ setCapturedImage None; onSession (setImage None) ].

(** Two cells hold the same stream object. *)
Definition sameStream (a b : option MediaStream) : bool :=
  match a, b with
  | Some x, Some y => if list_eq_dec Nat.eq_dec (getTracks x) (getTracks y) then true else false
  | None, None => true
  | _, _ => false
  end.

(** The preview elements are rendered inside
    [goal && currentStep && useCamera && cameraActive]. *)
Definition previewShown (p : Page) : bool :=
  JS.truthy (goal (session p)) && JS.truthy (currentStep (session p)) &&
  useCamera (camera p) && cameraActive (camera p).

(** What React does after the handler of a render with camera cells [c]
    has run: when [cameraStream] changed, the cleanup of the effect that
    closed over the old stream stops its tracks; the refs follow the
    elements of the new render (a newly rendered video has no source). *)
Definition commit (c : Camera) (p : Page) : Page :=
  let p1 :=
    if sameStream (cameraStream c) (cameraStream (camera p)) then p
    else match cameraStream c with
         | Some old => stopTracks old p
         | None => p
         end in
  {| session := session p1; camera := camera p1;
     video := if previewShown p1 then
                match video p1 with
                | Some v => Some v
                | None => Some {| srcObject := None |}
                end
              else None;
     canvas := previewShown p1;
     live := live p1;
     pendingCamera := pendingCamera p1 |}.

(** Unmounting the component runs the cleanup of the last effect. *)
Definition unmount (p : Page) : Page :=
  match cameraStream (camera p) with
  | Some stream => stopTracks stream p
  | None => p
  end.

(** What happens to the whole page: what the user does, and a pending
    camera request being answered.  [supported] tells whether the browser
    has [navigator.mediaDevices.getUserMedia]. *)
Inductive PageEvent :=
| OnSession (e : Event)
| ClickUploadImage
| ClickUseCamera (supported : bool)
| ClickStartCamera (supported : bool)
| GetUserMediaSettles (answer : MediaAnswer)
| ClickCapture (blob : bool) (timestamp : N)
| ClickRetake.

(** The code an event runs, with the cells of the current render.  A
    camera click runs [startCamera] up to its [await]; the rest of it
    runs when the request settles, after whatever happened in between. *)
Definition handle (p : Page) (e : PageEvent) : Page :=
  match e with
  | OnSession e' => onSession (fun s => step s e') p
  | ClickUploadImage => clickUploadImage (camera p) p
  | ClickUseCamera supported => clickUseCamera (camera p) supported p
  | ClickStartCamera supported => startCamera_call supported p
  | GetUserMediaSettles answer =>
      if (0 <? pendingCamera p)%nat then startCamera_resume answer p else p
  | ClickCapture blob timestamp => captureImage blob timestamp p
  | ClickRetake => clickRetake p
  end.

Definition pageStep (p : Page) (e : PageEvent) : Page :=
  commit (camera p) (handle p e).

Definition pageExec (p : Page) (es : list PageEvent) : Page := fold_left pageStep es p.

(** Which events the page allows: the two toggles whenever a current
    step is shown; in camera mode Start Camera while the camera is not
    active (as it is while a request is pending), Capture while it is
    active and nothing is captured, Retake once something is; a request
    can settle only while one is pending. *)
Definition pageOffered (p : Page) (e : PageEvent) : bool :=
  let stepShown := JS.truthy (goal (session p)) && JS.truthy (currentStep (session p)) in
  let c := camera p in
  match e with
  | OnSession (EvSetTextNote _) => stepShown && negb (useCamera c)
  | OnSession (EvSetImage _) => stepShown && negb (useCamera c)
  | OnSession e' => offered (session p) e'
  | ClickUploadImage | ClickUseCamera _ => stepShown
  | ClickStartCamera _ =>
      stepShown && useCamera c && negb (cameraActive c) && negb (loading (session p))
  | GetUserMediaSettles _ => (0 <? pendingCamera p)%nat
  | ClickCapture _ _ =>
      stepShown && useCamera c && cameraActive c &&
      negb (JS.present (capturedImage c)) && negb (loading (session p))
  | ClickRetake =>
      stepShown && useCamera c && cameraActive c && JS.present (capturedImage c)
  end.

Fixpoint pageReachable_by (p : Page) (es : list PageEvent) : bool :=
  match es with
  | [] => true
  | e :: es' => pageOffered p e && pageReachable_by (pageStep p e) es'
  end.

(** ** Invariants of the page *)

(** An idle page (no goal) holds no trace of a task. *)
Definition idleIsClean (s : State) : Prop :=
  goal s = "" ->
  taskId s = "" /\ steps s = [] /\ currentStep s = "" /\ currentIndex s = 0 /\
  history s = [] /\ options s = [].

(** Every running track belongs to the stream the page holds, the page
    holds a stream exactly while the camera is marked active, and the
    preview elements exist only while it is. *)
Definition cameraConsistent (p : Page) : Prop :=
  (forall t, In t (live p) ->
     exists stream, cameraStream (camera p) = Some stream /\ In t (getTracks stream)) /\
  (cameraActive (camera p) = true <-> cameraStream (camera p) <> None) /\
  (video p <> None -> cameraActive (camera p) = true).

(** An outcome that [startTask], [doneStep] and [applyOption] end in their
    [catch] block for: a rejected request, an error status or a null body. *)
Definition failedOutcome (o : Outcome) : bool :=
  match o with
  | Response true (Some _) => false
  | _ => true
  end.

(** Events whose handlers hold no call to [setImage] or [setTextNote]. *)
Definition leavesEvidence (e : Event) : bool :=
  match e with
  | EvSetTask _ | EvStartTask _ | EvApplyOption _ _ => true
  | _ => false
  end.

(** The preview element, when there is one, has no stream assigned. *)
Definition previewDetached (p : Page) : Prop :=
  (video p <> None -> cameraActive (camera p) = true) /\
  (forall v, video p = Some v -> srcObject v = None).

(** The event sends a [getUserMedia] request. *)
Definition requestsCamera (p : Page) (e : PageEvent) : bool :=
  match e with
  | ClickUseCamera supported => supported && negb (cameraActive (camera p))
  | ClickStartCamera supported => supported
  | _ => false
  end.

(** A sequence of allowed events in which no camera request is sent while
    another one is pending. *)
Fixpoint oneRequestAtATime (p : Page) (es : list PageEvent) : bool :=
  match es with
  | [] => true
  | e :: es' =>
      pageOffered p e &&
      (if requestsCamera p e then (pendingCamera p =? 0)%nat else true) &&
      oneRequestAtATime (pageStep p e) es'
  end.

(** At most one request is pending, and only while the camera is not
    active. *)
Definition atMostOnePending (p : Page) : Prop :=
  (0 < pendingCamera p)%nat ->
  pendingCamera p = 1%nat /\ cameraActive (camera p) = false.

(** The list under "History (latest first)":
    [history.slice().reverse()], rendered when the history is not empty. *)
Definition historyView (s : State) : list HistoryEntry := rev (history s).

(** The cached currentStep is what the steps list holds at currentIndex
    (empty outside the list). *)
Definition stepCacheCoherent (s : State) : Prop :=
  currentStep s = elementOrEmpty (steps s) (currentIndex s).

(** ** Facts about the JavaScript primitives *)

Module JSFacts.

Lemma truthy_iff (s : string) : JS.truthy s = true <-> s <> "".
Proof.
  unfold JS.truthy. destruct (String.eqb_spec s ""); cbn; split; congruence.
Qed.

Lemma truthy_false_iff (s : string) : JS.truthy s = false <-> s = "".
Proof.
  unfold JS.truthy. destruct (String.eqb_spec s ""); cbn; split; congruence.
Qed.

Lemma orElse_empty (x : option string) :
  JS.orElse x "" = match x with Some v => v | None => "" end.
Proof.
  destruct x as [v|]; cbn; [|reflexivity].
  destruct (JS.truthy v) eqn:E; [reflexivity|].
  apply truthy_false_iff in E. now subst.
Qed.

Lemma orElse_get_empty (a : list string) (i : Z) :
  JS.orElse (JS.get a i) "" = elementOrEmpty a i.
Proof. unfold elementOrEmpty. apply orElse_empty. Qed.

Lemma get_past_end (a : list string) (i : Z) :
  Z.of_nat (List.length a) <= i -> JS.get a i = None.
Proof.
  intros H. unfold JS.get. destruct (Z.ltb_spec i 0); [reflexivity|].
  apply nth_error_None. lia.
Qed.

Lemma includes_iff (a : list string) (x : string) :
  JS.includes a x = true <-> In x a.
Proof.
  unfold JS.includes. rewrite existsb_exists. split.
  - intros (y & Hy & E). apply String.eqb_eq in E. now subst.
  - intros H. exists x. split; [assumption | apply String.eqb_refl].
Qed.

Lemma includes_false_iff (a : list string) (x : string) :
  JS.includes a x = false <-> ~ In x a.
Proof.
  rewrite <- includes_iff. destruct (JS.includes a x); split; congruence.
Qed.

Lemma indexOfFrom_absent (a : list string) (x : string) (i : Z) :
  ~ In x a -> JS.indexOfFrom a x i = -1.
Proof.
  revert i. induction a as [|y a IH]; intros i H; cbn; [reflexivity|].
  destruct (String.eqb_spec y x) as [E|E].
  - exfalso. apply H. now left.
  - apply IH. intros Hin. apply H. now right.
Qed.

Lemma get_cons_succ (y : string) (a : list string) (k : Z) :
  0 <= k -> JS.get (y :: a) (k + 1) = JS.get a k.
Proof.
  intros Hk. unfold JS.get.
  destruct (Z.ltb_spec (k + 1) 0); [lia|].
  destruct (Z.ltb_spec k 0); [lia|].
  replace (Z.to_nat (k + 1)) with (S (Z.to_nat k)) by lia. reflexivity.
Qed.

(** When [x] occurs, [indexOfFrom] returns the offset [i] plus the first
    position of [x]. *)
Lemma indexOfFrom_present (a : list string) (x : string) (i : Z) :
  In x a -> exists k, JS.indexOfFrom a x i = i + k /\ 0 <= k /\ firstAt a x k.
Proof.
  revert i. induction a as [|y a IH]; intros i H; [destruct H|].
  cbn [JS.indexOfFrom]. destruct (String.eqb_spec y x) as [E|E].
  - exists 0. subst y. repeat split; lia.
  - destruct H as [H|H]; [congruence|].
    destruct (IH (i + 1) H) as (k & Hk & Hk0 & Hget & Hfirst).
    exists (k + 1). repeat split; try lia.
    + rewrite get_cons_succ by lia. exact Hget.
    + intros j Hj. destruct (Z.eq_dec j 0) as [->|Hj0].
      * cbn. congruence.
      * replace j with ((j - 1) + 1) by lia.
        rewrite get_cons_succ by lia. apply Hfirst. lia.
Qed.

Lemma indexOf_absent (a : list string) (x : string) :
  ~ In x a -> (JS.indexOf a x >=? 0) = false.
Proof.
  intros H. unfold JS.indexOf. rewrite indexOfFrom_absent by assumption.
  reflexivity.
Qed.

Lemma indexOf_present (a : list string) (x : string) :
  In x a -> (JS.indexOf a x >=? 0) = true /\ firstAt a x (JS.indexOf a x).
Proof.
  intros H. unfold JS.indexOf.
  destruct (indexOfFrom_present a x 0 H) as (k & -> & Hk & Hf).
  split; [apply Z.geb_le; lia | exact Hf].
Qed.

Lemma list_length_ind {A : Type} (P : list A -> Prop) :
  (forall l, (forall l', (List.length l' < List.length l)%nat -> P l') -> P l) ->
  forall l, P l.
Proof.
  intros H l.
  assert (G : forall n l', (List.length l' < n)%nat -> P l').
  { induction n as [|n IH]; intros l' Hl; [lia|].
    apply H. intros l'' Hl''. apply IH. lia. }
  apply H. intros l' Hl'. now apply (G (List.length l)).
Qed.

Lemma lead2_not_ws1 (a b : ascii) :
  JS.isWhiteSpace2 a b = true -> JS.isWhiteSpace1 a = false.
Proof.
  unfold JS.isWhiteSpace2, JS.isWhiteSpace1. intros H.
  apply andb_true_iff in H. destruct H as [H _].
  apply N.eqb_eq in H. now rewrite H.
Qed.

Lemma lead3_not_ws (a b c : ascii) :
  JS.isWhiteSpace3 a b c = true ->
  JS.isWhiteSpace1 a = false /\ JS.isWhiteSpace2 a b = false.
Proof.
  intros H.
  assert (L : JS.code a = 225%N \/ JS.code a = 226%N \/
              JS.code a = 227%N \/ JS.code a = 239%N).
  { unfold JS.isWhiteSpace3 in H.
    destruct (N.eqb_spec (JS.code a) 225), (N.eqb_spec (JS.code a) 226),
      (N.eqb_spec (JS.code a) 227), (N.eqb_spec (JS.code a) 239);
      auto; cbn in H; discriminate H. }
  unfold JS.isWhiteSpace1, JS.isWhiteSpace2.
  destruct L as [L | [L | [L | L]]]; rewrite L; split; reflexivity.
Qed.

Lemma WhiteSpaces_app (x y : list ascii) :
  WhiteSpaces x -> WhiteSpaces y -> WhiteSpaces (x ++ y).
Proof.
  intros Hx Hy. induction Hx; cbn; [assumption | | |].
  - now apply WhiteSpaces_1.
  - now apply WhiteSpaces_2.
  - now apply WhiteSpaces_3.
Qed.

Lemma allWhiteSpace_iff (l : list ascii) :
  allWhiteSpace l = true <-> WhiteSpaces l.
Proof.
  split.
  - induction l as [l IH] using list_length_ind.
    destruct l as [|a l1]; [constructor|]. cbn [allWhiteSpace].
    destruct (JS.isWhiteSpace1 a) eqn:E1.
    { intros H. apply WhiteSpaces_1; [assumption|]. apply IH; [cbn; lia | assumption]. }
    destruct l1 as [|b l2]; [discriminate|].
    destruct (JS.isWhiteSpace2 a b) eqn:E2.
    { intros H. apply WhiteSpaces_2; [assumption|]. apply IH; [cbn; lia | assumption]. }
    destruct l2 as [|c l3]; [discriminate|].
    intros H. apply andb_true_iff in H. destruct H as [E3 H].
    apply WhiteSpaces_3; [assumption|]. apply IH; [cbn; lia | assumption].
  - intros H. induction H as [|a l E _ IH|a b l E _ IH|a b c l E _ IH];
      cbn [allWhiteSpace]; [reflexivity | now rewrite E | |].
    + now rewrite (lead2_not_ws1 a b E), E.
    + destruct (lead3_not_ws a b c E) as [E1 E2]. now rewrite E1, E2, E.
Qed.

Lemma dropWhiteSpace_split (l : list ascii) :
  exists w, l = w ++ JS.dropWhiteSpace l /\ WhiteSpaces w.
Proof.
  induction l as [l IH] using list_length_ind.
  assert (Hnone : exists w, l = w ++ l /\ WhiteSpaces w)
    by (exists []; split; [reflexivity | constructor]).
  destruct l as [|a l1]; [exact Hnone|]. cbn [JS.dropWhiteSpace].
  destruct (JS.isWhiteSpace1 a) eqn:E1.
  { destruct (IH l1) as (w & Hw & Hs); [cbn; lia|].
    exists (a :: w). split; [cbn; now rewrite <- Hw | now apply WhiteSpaces_1]. }
  destruct l1 as [|b l2]; [exact Hnone|].
  destruct (JS.isWhiteSpace2 a b) eqn:E2.
  { destruct (IH l2) as (w & Hw & Hs); [cbn; lia|].
    exists (a :: b :: w). split; [cbn; now rewrite <- Hw | now apply WhiteSpaces_2]. }
  destruct l2 as [|c l3]; [exact Hnone|].
  destruct (JS.isWhiteSpace3 a b c) eqn:E3; [|exact Hnone].
  destruct (IH l3) as (w & Hw & Hs); [cbn; lia|].
  exists (a :: b :: c :: w). split; [cbn; now rewrite <- Hw | now apply WhiteSpaces_3].
Qed.

Lemma dropWhiteSpace_all (l : list ascii) :
  WhiteSpaces l -> JS.dropWhiteSpace l = [].
Proof.
  intros H. induction H as [|a l E _ IH|a b l E _ IH|a b c l E _ IH];
    cbn [JS.dropWhiteSpace]; [reflexivity | now rewrite E | |].
  - now rewrite (lead2_not_ws1 a b E), E.
  - destruct (lead3_not_ws a b c E) as [E1 E2]. now rewrite E1, E2, E.
Qed.

Lemma dropWhiteSpaceBack_split (l : list ascii) :
  exists w, l = w ++ JS.dropWhiteSpaceBack l /\ WhiteSpaces (rev w).
Proof.
  induction l as [l IH] using list_length_ind.
  assert (Hnone : exists w, l = w ++ l /\ WhiteSpaces (rev w))
    by (exists []; split; [reflexivity | constructor]).
  destruct l as [|c l1]; [exact Hnone|]. cbn [JS.dropWhiteSpaceBack].
  destruct (JS.isWhiteSpace1 c) eqn:E1.
  { destruct (IH l1) as (w & Hw & Hs); [cbn; lia|].
    exists (c :: w). split; [cbn; now rewrite <- Hw|].
    cbn [rev]. apply WhiteSpaces_app; [assumption|].
    apply WhiteSpaces_1; [assumption | constructor]. }
  destruct l1 as [|b l2]; [exact Hnone|].
  destruct (JS.isWhiteSpace2 b c) eqn:E2.
  { destruct (IH l2) as (w & Hw & Hs); [cbn; lia|].
    exists (c :: b :: w). split; [cbn; now rewrite <- Hw|].
    cbn [rev]. rewrite <- app_assoc. apply WhiteSpaces_app; [assumption|].
    apply WhiteSpaces_2; [assumption | constructor]. }
  destruct l2 as [|a l3]; [exact Hnone|].
  destruct (JS.isWhiteSpace3 a b c) eqn:E3; [|exact Hnone].
  destruct (IH l3) as (w & Hw & Hs); [cbn; lia|].
  exists (c :: b :: a :: w). split; [cbn; now rewrite <- Hw|].
  cbn [rev]. rewrite <- !app_assoc. apply WhiteSpaces_app; [assumption|].
  apply WhiteSpaces_3; [assumption | constructor].
Qed.

Lemma string_of_list_ascii_app (x y : list ascii) :
  string_of_list_ascii (x ++ y)
  = (string_of_list_ascii x ++ string_of_list_ascii y)%string.
Proof. induction x as [|a x IH]; cbn; [reflexivity | now rewrite IH]. Qed.

Lemma string_of_list_ascii_empty (x : list ascii) :
  string_of_list_ascii x = "" <-> x = [].
Proof. destruct x; cbn; split; congruence. Qed.

(** The characters of [trim s], and how [s] is built around them. *)
Lemma trim_split_list (s : string) :
  exists lead trail,
    list_ascii_of_string s = lead ++ list_ascii_of_string (JS.trim s) ++ trail /\
    WhiteSpaces lead /\ WhiteSpaces trail.
Proof.
  unfold JS.trim, JS.trimEnd, JS.trimStart.
  rewrite !list_ascii_of_string_of_list_ascii.
  destruct (dropWhiteSpace_split (list_ascii_of_string s)) as (lead & Hl & Hlead).
  set (d := JS.dropWhiteSpace (list_ascii_of_string s)) in *.
  destruct (dropWhiteSpaceBack_split (rev d)) as (w & Hw & Htrail).
  exists lead, (rev w). split; [|split; assumption].
  rewrite Hl at 1. f_equal.
  rewrite <- rev_app_distr, <- Hw. symmetry. apply rev_involutive.
Qed.

(** [trim] leaves nothing exactly when the text is blank. *)
Lemma trim_empty_iff (s : string) : JS.trim s = "" <-> blank s = true.
Proof.
  unfold blank. rewrite allWhiteSpace_iff. split.
  - intros H. destruct (trim_split_list s) as (lead & trail & Hs & Hl & Ht).
    rewrite H in Hs. cbn in Hs. rewrite Hs. now apply WhiteSpaces_app.
  - intros H. unfold JS.trim, JS.trimEnd, JS.trimStart.
    rewrite !list_ascii_of_string_of_list_ascii.
    now rewrite (dropWhiteSpace_all _ H).
Qed.

(** [s] is [trim s] between two blank texts. *)
Lemma trim_split (s : string) :
  exists lead trail,
    s = (lead ++ JS.trim s ++ trail)%string /\
    blank lead = true /\ blank trail = true.
Proof.
  destruct (trim_split_list s) as (lead & trail & Hs & Hl & Ht).
  exists (string_of_list_ascii lead), (string_of_list_ascii trail).
  unfold blank. rewrite !list_ascii_of_string_of_list_ascii, !allWhiteSpace_iff.
  split; [|split; assumption].
  rewrite <- (string_of_list_ascii_of_string s) at 1. rewrite Hs.
  now rewrite !string_of_list_ascii_app, string_of_list_ascii_of_string.
Qed.

End JSFacts.

(** ** Facts shared by the handlers *)

Lemma missingEvidence_iff (s : State) :
  missingEvidence s = true <-> image s = None /\ blank (textNote s) = true.
Proof.
  unfold missingEvidence. rewrite andb_true_iff, !negb_true_iff.
  rewrite JSFacts.truthy_false_iff, JSFacts.trim_empty_iff.
  destruct (image s); cbn; split; intros [H1 H2]; split; congruence.
Qed.

Lemma run_verifyStep_valid (s : State) (o : Outcome) (now : string) :
  missingEvidence s = false ->
  run verifyStep o now s =
  verifyStep_after s o now (batch [setLoading true; setMessage ""; setOptions []] s).
Proof. intros H. unfold run, verifyStep. now rewrite H. Qed.

Lemma run_verifyStep_invalid (s : State) (o : Outcome) (now : string) :
  missingEvidence s = true ->
  run verifyStep o now s = setMessage "Please provide an image or a text note." s.
Proof. intros H. unfold run, verifyStep. now rewrite H. Qed.

(** Unfolds one resolved [verifyStep] down to the setter calls. *)
Ltac verify_steps H :=
  rewrite (run_verifyStep_valid _ _ _ H);
  unfold verifyStep_after, verifyStep_handle.

(** ** verifyStep: reconciliation of the response *)

(** C1: a response with [done == true] makes the session terminal,
    whatever [passed] is: history is replaced by the service's history when
    the response has one and kept otherwise, steps and currentStep are
    cleared, currentIndex is 0 and options is cleared. *)
Theorem verifyStep_done_is_terminal (s : State) (ok : bool) (d : Data) (now : string) :
  missingEvidence s = false ->
  d_done d = true ->
  let s' := run verifyStep (Response ok (Some d)) now s in
  history s' = match d_history d with Some h => h | None => history s end /\
  steps s' = [] /\ currentStep s' = "" /\ currentIndex s' = 0 /\ options s' = [].
Proof.
  intros Hev Hdone s'. subst s'. verify_steps Hev. rewrite Hdone.
  destruct (d_passed d), (d_history d); cbn; repeat split.
Qed.

Lemma verifyStep_done_is_terminal_witness :
  let s := withEvidence None "tea is served" Tea.boiled in
  let d := Tea.completed false None None in
  let s' := run verifyStep (Response true (Some d)) "2025-01-01T10:05:00.000Z" s in
  missingEvidence s = false /\ d_done d = true /\
  history s' = history s /\
  steps s' = [] /\ currentStep s' = "" /\ currentIndex s' = 0 /\ options s' = [].
Proof.
  split; [reflexivity|]. split; [reflexivity|].
  apply (verifyStep_done_is_terminal
           (withEvidence None "tea is served" Tea.boiled) true
           (Tea.completed false None None) "2025-01-01T10:05:00.000Z");
    reflexivity.
Defined.

(** C2: a response with [done] absent or false, [passed == true], no
    nextSteps list and no nextStep string increments currentIndex by
    exactly 1 and reads currentStep from the unchanged local steps list at
    the new index; past the end of the list currentStep becomes empty. *)
Theorem verifyStep_passed_increments (s : State) (ok : bool) (d : Data) (now : string) :
  missingEvidence s = false ->
  d_done d = false ->
  d_passed d = true ->
  d_nextSteps d = None ->
  d_nextStep d = None ->
  let s' := run verifyStep (Response ok (Some d)) now s in
  currentIndex s' = currentIndex s + 1 /\
  steps s' = steps s /\
  currentStep s' = elementOrEmpty (steps s) (currentIndex s + 1) /\
  (Z.of_nat (List.length (steps s)) <= currentIndex s + 1 -> currentStep s' = "").
Proof.
  intros Hev Hdone Hpass Hlist Hnext s'. subst s'. verify_steps Hev.
  rewrite Hdone, Hpass, Hlist, Hnext. cbn.
  rewrite JSFacts.orElse_get_empty. repeat split.
  intros Hend. unfold elementOrEmpty. now rewrite JSFacts.get_past_end.
Qed.

Lemma verifyStep_passed_increments_witness :
  let s := withEvidence None "kettle is whistling" Tea.begun in
  let d := Tea.verdict true "water is boiling" None None in
  let s' := run verifyStep (Response true (Some d)) "2025-01-01T10:00:00.000Z" s in
  currentIndex s = 0 /\ currentIndex s' = 1 /\
  steps s' = ["boil water"; "steep tea"; "serve"] /\ currentStep s' = "steep tea".
Proof.
  destruct (verifyStep_passed_increments
              (withEvidence None "kettle is whistling" Tea.begun) true
              (Tea.verdict true "water is boiling" None None)
              "2025-01-01T10:00:00.000Z")
    as (Hi & Hs & Hc & _); try reflexivity.
  cbv zeta. rewrite Hi, Hs, Hc. repeat split.
Defined.

(** C3, as stated, fails on two kinds of response with [passed == true],
    no nextSteps list and a nextStep string.  With [done == true] the
    completion branch wins: the named step ["serve"] is in the list, yet
    the index does not move to it and currentStep is emptied.  With the
    empty string as nextStep the bare increment runs: nothing is appended
    and currentStep is read from the list. *)
Lemma verifyStep_named_next_step_counterexample :
  let s := withEvidence None "leaves are in the pot" Tea.boiled in
  (let d := Tea.completed true (Some "serve") None in
   let s' := run verifyStep (Response true (Some d)) "2025-01-01T10:05:00.000Z" s in
   d_passed d = true /\ d_nextSteps d = None /\ d_nextStep d = Some "serve" /\
   firstAt (steps s) "serve" 2 /\
   currentIndex s' = 0 /\ currentStep s' = "" /\ currentStep s' <> "serve") /\
  (let d := Tea.verdict true "steeped" (Some "") None in
   let s' := run verifyStep (Response true (Some d)) "2025-01-01T10:05:00.000Z" s in
   d_passed d = true /\ d_nextSteps d = None /\ d_nextStep d = Some "" /\
   ~ In "" (steps s) /\
   steps s' = steps s /\ steps s' <> steps s ++ [""] /\
   currentStep s' = "serve" /\ currentStep s' <> "").
Proof.
  cbv zeta. split.
  - repeat split; try discriminate.
    intros j Hj. assert (j = 0 \/ j = 1) as [-> | ->] by lia; discriminate.
  - repeat split; try discriminate.
    cbn. intros [H | [H | [H | []]]]; discriminate.
Qed.

(** C3 (amended): a response with [done] absent or false, [passed == true],
    no nextSteps list and a non-empty nextStep string makes that string
    the currentStep.  When the string occurs in the local steps list,
    currentIndex becomes its first position there, wherever the index was
    before, and the list is unchanged; when it does not occur, it is
    appended to the list, where it then occurs exactly once. *)
Theorem verifyStep_named_next_step
    (s : State) (ok : bool) (d : Data) (now : string) (nextStep : string) :
  missingEvidence s = false ->
  d_done d = false ->
  d_passed d = true ->
  d_nextSteps d = None ->
  d_nextStep d = Some nextStep ->
  nextStep <> "" ->
  let s' := run verifyStep (Response ok (Some d)) now s in
  currentStep s' = nextStep /\
  (In nextStep (steps s) ->
     firstAt (steps s) nextStep (currentIndex s') /\ steps s' = steps s) /\
  (~ In nextStep (steps s) ->
     steps s' = steps s ++ [nextStep] /\
     count_occ string_dec (steps s') nextStep = 1%nat).
Proof.
  intros Hev Hdone Hpass Hlist Hnext Hne s'. subst s'. verify_steps Hev.
  rewrite Hdone, Hpass, Hlist, Hnext.
  apply JSFacts.truthy_iff in Hne. rewrite Hne.
  destruct (in_dec string_dec nextStep (steps s)) as [Hin | Hout].
  - destruct (JSFacts.indexOf_present _ _ Hin) as [Hge Hfirst].
    rewrite Hge. cbn. split; [reflexivity|].
    split; [intros _; split; [exact Hfirst | reflexivity] | tauto].
  - rewrite (JSFacts.indexOf_absent _ _ Hout). cbn. rewrite Hne.
    apply JSFacts.includes_false_iff in Hout as Hinc.
    unfold JS.includes in Hinc. rewrite Hinc. cbn.
    split; [reflexivity|]. split; [tauto|]. intros _. split; [reflexivity|].
    rewrite count_occ_app. cbn.
    destruct (string_dec nextStep nextStep) as [_|N]; [|congruence].
    apply (count_occ_not_In string_dec) in Hout. rewrite Hout. reflexivity.
Qed.

Lemma verifyStep_named_next_step_witness :
  let s := setCurrentIndex 0 (withEvidence None "skipped ahead" Tea.begun) in
  let d := Tea.verdict true "already steeped" (Some "serve") None in
  let s' := run verifyStep (Response true (Some d)) "2025-01-01T10:00:00.000Z" s in
  currentIndex s = 0 /\ currentStep s' = "serve" /\
  firstAt (steps s) "serve" (currentIndex s') /\ steps s' = steps s.
Proof.
  destruct (verifyStep_named_next_step
              (setCurrentIndex 0 (withEvidence None "skipped ahead" Tea.begun)) true
              (Tea.verdict true "already steeped" (Some "serve") None)
              "2025-01-01T10:00:00.000Z" "serve")
    as (Hc & Hin & _); try reflexivity; try discriminate.
  cbv zeta. split; [reflexivity|]. split; [exact Hc|].
  apply Hin. cbn. tauto.
Defined.

(** C10: on the fallback path of [verifyStep] ([passed == true], the
    non-empty nextStep string not found in the local steps list the
    handler closed over), currentIndex keeps the value it had, currentStep
    becomes the string, and the updater appends the string to the list it
    is applied to only if the string occurs nowhere in that list; when it
    occurs anywhere, first or last, the list is left as it is.  In an
    uninterrupted invocation the index is therefore the one before the
    call. *)
Theorem verifyStep_fallback_keeps_index
    (c s : State) (ok : bool) (d : Data) (now : string) (nextStep : string) :
  d_done d = false ->
  d_passed d = true ->
  d_nextSteps d = None ->
  d_nextStep d = Some nextStep ->
  nextStep <> "" ->
  ~ In nextStep (steps c) ->
  (let s' := verifyStep_after c (Response ok (Some d)) now s in
   currentIndex s' = currentIndex s /\
   currentStep s' = nextStep /\
   (In nextStep (steps s) -> steps s' = steps s) /\
   (~ In nextStep (steps s) -> steps s' = steps s ++ [nextStep])) /\
  (missingEvidence c = false ->
   currentIndex (run verifyStep (Response ok (Some d)) now c) = currentIndex c).
Proof.
  intros Hdone Hpass Hlist Hnext Hne Hout.
  apply JSFacts.truthy_iff in Hne.
  assert (Hafter : forall l : State,
             let s' := verifyStep_after c (Response ok (Some d)) now l in
             currentIndex s' = currentIndex l /\
             currentStep s' = nextStep /\
             (In nextStep (steps l) -> steps s' = steps l) /\
             (~ In nextStep (steps l) -> steps s' = steps l ++ [nextStep])).
  { intros l. cbv zeta. unfold verifyStep_after, verifyStep_handle.
    rewrite Hdone, Hpass, Hlist, Hnext, Hne.
    rewrite (JSFacts.indexOf_absent _ _ Hout). cbn. rewrite Hne.
    split; [reflexivity|]. split; [reflexivity|]. split; intros H.
    - apply JSFacts.includes_iff in H. unfold JS.includes in H. now rewrite H.
    - apply JSFacts.includes_false_iff in H. unfold JS.includes in H.
      now rewrite H. }
  split; [apply Hafter|].
  intros Hev. rewrite (run_verifyStep_valid _ _ _ Hev).
  destruct (Hafter (batch [setLoading true; setMessage ""; setOptions []] c)) as [Hi _].
  rewrite Hi. reflexivity.
Qed.

Lemma verifyStep_fallback_keeps_index_witness :
  let c := withEvidence None "leaves are in the pot" Tea.boiled in
  let s := updSteps (fun l => "add milk" :: l) c in
  let d := Tea.verdict true "steeped" (Some "add milk") None in
  let s' := verifyStep_after c (Response true (Some d)) "2025-01-01T10:05:00.000Z" s in
  ~ In "add milk" (steps c) /\
  steps s = ["add milk"; "boil water"; "steep tea"; "serve"] /\
  currentIndex s' = 1 /\ currentStep s' = "add milk" /\ steps s' = steps s /\
  steps (run verifyStep (Response true (Some d)) "2025-01-01T10:05:00.000Z" c)
    = ["boil water"; "steep tea"; "serve"; "add milk"].
Proof.
  assert (Hout : ~ In "add milk" (steps (withEvidence None "leaves are in the pot" Tea.boiled))).
  { cbn. intros [H | [H | [H | []]]]; discriminate. }
  destruct (verifyStep_fallback_keeps_index
              (withEvidence None "leaves are in the pot" Tea.boiled)
              (updSteps (fun l => "add milk" :: l)
                 (withEvidence None "leaves are in the pot" Tea.boiled))
              true (Tea.verdict true "steeped" (Some "add milk") None)
              "2025-01-01T10:05:00.000Z" "add milk")
    as ((Hi & Hc & Hkeep & _) & _); try reflexivity; try discriminate; try exact Hout.
  cbv zeta. split; [exact Hout|]. split; [reflexivity|].
  split; [rewrite Hi; reflexivity|]. split; [exact Hc|].
  split; [apply Hkeep; cbn; tauto | reflexivity].
Defined.

(** C4, as stated, fails when a failed verification carries a nextSteps
    list: the list is adopted, so currentIndex and currentStep do change. *)
Lemma verifyStep_failed_counterexample :
  let s := withEvidence None "leaves are in the pot" Tea.boiled in
  let d := Tea.replan false ["buy tea"; "boil water"] in
  let s' := run verifyStep (Response true (Some d)) "2025-01-01T10:05:00.000Z" s in
  d_done d = false /\ d_passed d = false /\
  currentIndex s = 1 /\ currentIndex s' = 0 /\
  currentStep s = "steep tea" /\ currentStep s' = "buy tea".
Proof. cbv zeta. repeat split. Qed.

(** C4 (amended): a response with [done] absent or false and
    [passed == false] always replaces options by the response's option
    list (empty when absent).  When the response has no nextSteps list,
    currentIndex, currentStep and steps are left unchanged; when it has
    one, the list is adopted, currentIndex is 0 and currentStep is its
    head. *)
Theorem verifyStep_failed_keeps_position
    (s : State) (ok : bool) (d : Data) (now : string) :
  missingEvidence s = false ->
  d_done d = false ->
  d_passed d = false ->
  let s' := run verifyStep (Response ok (Some d)) now s in
  options s' = match d_options d with Some l => l | None => [] end /\
  (d_nextSteps d = None ->
     currentIndex s' = currentIndex s /\ currentStep s' = currentStep s /\
     steps s' = steps s) /\
  (forall nextSteps, d_nextSteps d = Some nextSteps ->
     steps s' = nextSteps /\ currentIndex s' = 0 /\
     currentStep s' = elementOrEmpty nextSteps 0).
Proof.
  intros Hev Hdone Hpass s'. subst s'. verify_steps Hev.
  rewrite Hdone, Hpass.
  destruct (d_nextSteps d) as [l|].
  - rewrite JSFacts.orElse_get_empty. cbn.
    split; [reflexivity|]. split; [discriminate|].
    intros l' [= <-]. repeat split.
  - cbn. split; [reflexivity|]. split; [repeat split | discriminate].
Qed.

Lemma verifyStep_failed_keeps_position_witness :
  let s := withEvidence None "leaves are in the pot" Tea.boiled in
  let d := Tea.verdict false "no evidence of steeping" None (Some ["retry"; "skip"]) in
  let s' := run verifyStep (Response true (Some d)) "2025-01-01T10:05:00.000Z" s in
  options s' = ["retry"; "skip"] /\
  currentIndex s' = 1 /\ currentStep s' = "steep tea" /\ steps s' = steps s.
Proof.
  destruct (verifyStep_failed_keeps_position
              (withEvidence None "leaves are in the pot" Tea.boiled) true
              (Tea.verdict false "no evidence of steeping" None (Some ["retry"; "skip"]))
              "2025-01-01T10:05:00.000Z")
    as (Ho & Hkeep & _); try reflexivity.
  destruct (Hkeep eq_refl) as (Hi & Hc & Hs).
  cbv zeta. rewrite Ho, Hi, Hc, Hs. repeat split.
Defined.

(** ** verifyStep: the evidence check *)



Lemma missingEvidence_false_iff (s : State) :
  missingEvidence s = false <-> image s <> None \/ blank (textNote s) = false.
Proof.
  rewrite <- not_true_iff_false, missingEvidence_iff.
  destruct (image s) as [f|], (blank (textNote s)); split; intros H;
    try (left; discriminate); try (right; reflexivity);
    try (intros [H1 H2]; discriminate).
  - exfalso. apply H. now split.
  - destruct H; congruence.
Qed.

Lemma rejected_keeps_session (s : State) (o : Outcome) (now : string) :
  missingEvidence s = true ->
  message (run verifyStep o now s) = "Please provide an image or a text note." /\
  sameSession (run verifyStep o now s) s.
Proof.
  intros H. rewrite (run_verifyStep_invalid _ _ _ H).
  unfold sameSession. cbn. repeat split.
Qed.




(** C7: the evidence check rejects exactly the inputs with no image and
    an empty or white-space-only text note (the note is trimmed before the
    check).  A rejected input sets the missing-evidence message, sends no
    request and leaves the session as it was.  No image with [""] or
    ["   "] is rejected; no image with ["ok"], and a file with [""], are
    accepted and the request is sent.  White space is every code point
    [trim] removes: a note of U+3000, of U+00A0, or of U+FEFF and U+2028
    is rejected too, while a note ending in U+00E0 is sent whole. *)
Theorem evidence_validation :
  (forall s, sent verifyStep s = None <-> image s = None /\ blank (textNote s) = true) /\
  (forall s o now,
     sent verifyStep s = None ->
     message (run verifyStep o now s) = "Please provide an image or a text note." /\
     sameSession (run verifyStep o now s) s) /\
  (forall s f,
     sent verifyStep (withEvidence None "" s) = None /\
     sent verifyStep (withEvidence None "   " s) = None /\
     sent verifyStep (withEvidence None "ok" s)
       = Some (PostVerifyStep (taskId s) None (Some "ok")) /\
     sent verifyStep (withEvidence (Some f) "" s)
       = Some (PostVerifyStep (taskId s) (Some f) None)) /\
  (forall s,
     sent verifyStep (withEvidence None Utf8.ideographicSpace s) = None /\
     sent verifyStep (withEvidence None Utf8.noBreakSpace s) = None /\
     sent verifyStep (withEvidence None Utf8.markAndLineSeparator s) = None /\
     sent verifyStep (withEvidence None Utf8.voila s)
       = Some (PostVerifyStep (taskId s) None (Some Utf8.voila))).
Proof.
  assert (Hsent : forall s, sent verifyStep s = None <-> missingEvidence s = true).
  { intros s. unfold sent, verifyStep.
    destruct (missingEvidence s); split; congruence. }
  split; [|split; [|split]].
  - intros s. rewrite Hsent. apply missingEvidence_iff.
  - intros s o now H. apply Hsent in H. now apply rejected_keeps_session.
  - intros s f. repeat split.
  - intros s. repeat split.
Qed.

Lemma evidence_validation_witness :
  let s := withEvidence None Utf8.ideographicSpace Tea.boiled in
  let s' := run verifyStep (Response true (Some Tea.emptyObject)) "" s in
  sent verifyStep s = None /\
  message s' = "Please provide an image or a text note." /\ sameSession s' s.
Proof.
  destruct evidence_validation as (Hiff & Hrej & _).
  assert (H : sent verifyStep (withEvidence None Utf8.ideographicSpace Tea.boiled) = None).
  { apply Hiff. split; reflexivity. }
  cbv zeta. split; [exact H|]. apply Hrej. exact H.
Defined.

(** ** doneStep *)

(** C8, as stated, fails on the reason recorded: the entry appended for a
    response that does not report completion carries the reason
    ["Step marked as done"].  And a response with an error status is not
    reconciled at all: nothing is appended and the index stays. *)
Lemma doneStep_counterexample :
  let s := Tea.boiled in
  (let s' := run doneStep (Response true (Some Tea.emptyObject)) "2025-01-01T10:05:00.000Z" s in
   d_done Tea.emptyObject = false /\
   exists e, history s' = history s ++ [e] /\
             res_reason (h_result e) = Some "Step marked as done" /\
             res_reason (h_result e) <> Some "manually marked done") /\
  (let s' := run doneStep (Response false (Some Tea.emptyObject)) "2025-01-01T10:05:00.000Z" s in
   history s' = history s /\ currentIndex s' = currentIndex s /\
   currentStep s' = currentStep s).
Proof.
  cbv zeta. split.
  - split; [reflexivity|]. eexists. split; [reflexivity|].
    split; [reflexivity | discriminate].
  - repeat split.
Qed.

(** C8 (amended): for every response with a success status, [doneStep]
    either appends, when the response does not report completion, one
    entry for the current step with the fixed result [passed = true] and
    reason ["Step marked as done"], increments currentIndex by exactly one
    and reads currentStep from the unchanged local steps list at the new
    position; or, when the response reports [done], adopts the completion
    payload: history becomes the service's history when present, steps,
    currentStep and options are cleared and currentIndex is 0. *)
Theorem doneStep_marks_done (s : State) (d : Data) (now : string) :
  let s' := run doneStep (Response true (Some d)) now s in
  (d_done d = false ->
     (exists e, history s' = history s ++ [e] /\
                h_step e = currentStep s /\
                res_passed (h_result e) = true /\
                res_reason (h_result e) = Some "Step marked as done") /\
     currentIndex s' = currentIndex s + 1 /\
     currentStep s' = elementOrEmpty (steps s) (currentIndex s + 1) /\
     steps s' = steps s) /\
  (d_done d = true ->
     history s' = match d_history d with Some h => h | None => history s end /\
     steps s' = [] /\ currentStep s' = "" /\ currentIndex s' = 0 /\ options s' = []).
Proof.
  cbv zeta. unfold run, doneStep, doneStep_after, doneStep_handle.
  split; intros Hdone; rewrite Hdone.
  - rewrite JSFacts.orElse_get_empty. cbn. split; [|repeat split].
    exists (doneEntry s now). repeat split.
  - destruct (d_history d); cbn; repeat split.
Qed.

Lemma doneStep_marks_done_witness :
  let s := Tea.boiled in
  let s' := run doneStep (Response true (Some Tea.emptyObject)) "2025-01-01T10:05:00.000Z" s in
  List.length (history s') = 2%nat /\ currentIndex s' = 2 /\ currentStep s' = "serve".
Proof.
  destruct (doneStep_marks_done Tea.boiled Tea.emptyObject "2025-01-01T10:05:00.000Z")
    as [H _].
  destruct (H eq_refl) as ((e & He & _) & Hi & Hc & _).
  cbv zeta. rewrite He, Hi, Hc. repeat split.
Defined.

(** ** applyOption *)

(** C9, as stated, fails when the gateway does not answer with a success
    status and a JSON object: on an error status, a transport failure or
    a null body, ["quit"] leaves goal, taskId, steps and history in place. *)
Lemma applyOption_quit_counterexample :
  let s := Tea.boiled in
  let kept (s' : State) :=
    goal s' = "make tea" /\ taskId s' = "t1" /\
    steps s' = ["boil water"; "steep tea"; "serve"] /\
    List.length (history s') = 1%nat in
  kept (run (applyOption "quit") (Response false (Some Tea.emptyObject)) "" s) /\
  kept (run (applyOption "quit") Rejected "" s) /\
  kept (run (applyOption "quit") (Response true None) "" s).
Proof. cbv zeta. repeat split. Qed.

(** C9 (amended): whenever the gateway answers [applyOption("quit")]
    with a success status and a JSON object, the whole session goes back
    to the no-task state, whatever the prior state and whatever the
    object holds: goal, taskId, steps, currentStep, history and options
    are empty and currentIndex is 0. *)
Theorem applyOption_quit_wipes_session (s : State) (d : Data) (now : string) :
  let s' := run (applyOption "quit") (Response true (Some d)) now s in
  goal s' = "" /\ taskId s' = "" /\ steps s' = [] /\ currentStep s' = "" /\
  currentIndex s' = 0 /\ history s' = [] /\ options s' = [].
Proof. cbv zeta. repeat split. Qed.

(** ** The stored history along sequences of transitions *)

Lemma history_startTask (s : State) (o : Outcome) (now : string) :
  history (run startTask o now s) =
  match o with
  | Response true (Some _) =>
      if JS.truthy (JS.trim (task s)) then [] else history s
  | _ => history s
  end.
Proof.
  unfold run, startTask.
  destruct (JS.truthy (JS.trim (task s))), o as [|[|] [d|]]; reflexivity.
Qed.

Lemma history_verifyStep (s : State) (o : Outcome) (now : string) :
  history (run verifyStep o now s) =
  match o with
  | Response _ (Some d) =>
      if missingEvidence s then history s
      else if d_done d then JS.orElseArr (d_history d) (history s)
      else history s ++ [attemptEntry s d now]
  | _ => history s
  end.
Proof.
  unfold run, verifyStep.
  destruct (missingEvidence s), o as [|ok [d|]]; try reflexivity.
  unfold verifyStep_after, verifyStep_handle.
  destruct (d_done d), (d_passed d), (d_nextSteps d), (d_nextStep d) as [n|];
    try reflexivity;
    destruct (JS.truthy n); try reflexivity;
    destruct (JS.indexOf (steps s) n >=? 0); reflexivity.
Qed.

Lemma history_doneStep (s : State) (o : Outcome) (now : string) :
  history (run doneStep o now s) =
  match o with
  | Response true (Some d) =>
      if d_done d then JS.orElseArr (d_history d) (history s)
      else history s ++ [doneEntry s now]
  | _ => history s
  end.
Proof.
  unfold run, doneStep, doneStep_after, doneStep_handle.
  destruct o as [|[|] [d|]]; try reflexivity.
  destruct (d_done d); reflexivity.
Qed.

Lemma history_applyOption (opt : string) (s : State) (o : Outcome) (now : string) :
  history (run (applyOption opt) o now s) =
  match o with
  | Response true (Some _) =>
      if JS.truthy opt && ((opt =? "quit")%string || (opt =? "restart")%string)
      then [] else history s
  | _ => history s
  end.
Proof.
  unfold run, applyOption, applyOption_after, applyOption_handle.
  destruct (JS.truthy opt), o as [|[|] [d|]]; try reflexivity.
  destruct (opt =? "quit")%string; [reflexivity|].
  destruct (opt =? "restart")%string; reflexivity.
Qed.

(** One event that is not a reset or a replacement only adds to the end. *)
Lemma step_extends_history (s : State) (e : Event) :
  replacesHistory e = false ->
  exists added, history (step s e) = history s ++ added.
Proof.
  intros H.
  assert (Hsame : forall h : list HistoryEntry, exists added, h = h ++ added).
  { intros h. exists []. now rewrite app_nil_r. }
  destruct e as [v | v | f | o | o now | o now | opt o]; cbn [step].
  - apply Hsame.
  - apply Hsame.
  - apply Hsame.
  - rewrite history_startTask.
    destruct o as [|[|] [d|]]; try apply Hsame. discriminate H.
  - rewrite history_verifyStep.
    destruct o as [|ok [d|]]; try apply Hsame. cbn in H.
    destruct (missingEvidence s); [apply Hsame|].
    destruct (d_done d); [|eexists; reflexivity].
    destruct (d_history d); [discriminate H | apply Hsame].
  - rewrite history_doneStep.
    destruct o as [|[|] [d|]]; try apply Hsame. cbn in H.
    destruct (d_done d); [|eexists; reflexivity].
    destruct (d_history d); [discriminate H | apply Hsame].
  - rewrite history_applyOption.
    destruct o as [|[|] [d|]]; try apply Hsame. cbn in H.
    rewrite H, andb_false_r. apply Hsame.
Qed.

(** C5, as stated, fails: the session of the tea scenario, reached through
    the controls the page offers, holds one history entry, and quitting
    empties the history. *)
Lemma history_monotone_counterexample :
  let trace := [ EvSetTask "I want to make tea";
                 EvStartTask (Response true (Some Tea.started));
                 EvSetTextNote "kettle is whistling";
                 EvVerifyStep
                   (Response true (Some (Tea.verdict true "water is boiling" None None)))
                   "2025-01-01T10:00:00.000Z" ] in
  let quit := EvApplyOption "quit" (Response true (Some Tea.emptyObject)) in
  reachable_by initial (trace ++ [quit]) = true /\
  List.length (history (exec initial trace)) = 1%nat /\
  List.length (history (exec initial (trace ++ [quit]))) = 0%nat /\
  ~ (forall s es, (List.length (history s) <= List.length (history (exec s es)))%nat).
Proof.
  cbv zeta. repeat split.
  intros H.
  specialize (H Tea.boiled [EvApplyOption "quit" (Response true (Some Tea.emptyObject))]).
  cbn in H. lia.
Qed.

(** C5 (amended): along every sequence of transitions that contains no
    accepted start, restart or quit and no completion response carrying a
    service history, the stored history is only appended to: the history
    before the sequence is a prefix of the history after it, so its
    length never decreases and the stored order of its entries never
    changes.  (An accepted start, restart or quit empties the history, and
    a completion response replaces it by the service's history.) *)
Theorem history_append_only (s : State) (es : list Event) :
  Forall (fun e => replacesHistory e = false) es ->
  (exists added, history (exec s es) = history s ++ added) /\
  (List.length (history s) <= List.length (history (exec s es)))%nat.
Proof.
  intros H.
  assert (Hprefix : exists added, history (exec s es) = history s ++ added).
  { revert s. induction H as [|e es He _ IH]; intros s.
    - exists []. cbn. now rewrite app_nil_r.
    - cbn [exec fold_left].
      destruct (step_extends_history s e He) as (a1 & E1).
      destruct (IH (step s e)) as (a2 & E2). unfold exec in E2.
      exists (a1 ++ a2). rewrite E2, E1. now rewrite app_assoc. }
  split; [exact Hprefix|].
  destruct Hprefix as (added & ->). rewrite length_app. lia.
Qed.

Lemma history_append_only_witness :
  let es := [ EvSetTextNote "leaves are in the pot";
              EvVerifyStep
                (Response true
                   (Some (Tea.verdict false "no evidence of steeping" None
                            (Some ["retry"; "skip"]))))
                "2025-01-01T10:05:00.000Z";
              EvApplyOption "retry" (Response true (Some Tea.emptyObject));
              EvDoneStep (Response true (Some Tea.emptyObject))
                "2025-01-01T10:06:00.000Z" ] in
  reachable_by Tea.boiled es = true /\
  List.length (history (exec Tea.boiled es)) = 3%nat /\
  (exists added, history (exec Tea.boiled es) = history Tea.boiled ++ added) /\
  (List.length (history Tea.boiled) <= List.length (history (exec Tea.boiled es)))%nat.
Proof.
  cbv zeta. split; [reflexivity|]. split; [reflexivity|].
  apply (history_append_only Tea.boiled).
  repeat constructor.
Defined.

(** ** Further properties of the session handlers *)

Lemma batch_app (us vs : list Update) (s : State) :
  batch (us ++ vs) s = batch vs (batch us s).
Proof. unfold batch. apply fold_left_app. Qed.

Lemma blank_false_not_empty (t : string) : blank t = false -> t <> "".
Proof. intros H ->. discriminate H. Qed.

Lemma truthy_trim_blank (t : string) : JS.truthy (JS.trim t) = negb (blank t).
Proof.
  destruct (blank t) eqn:B.
  - apply JSFacts.trim_empty_iff in B. now rewrite B.
  - apply JSFacts.truthy_iff. intros E. apply JSFacts.trim_empty_iff in E. congruence.
Qed.

(** Splits on every [match] and [if] of the goal, outermost first. *)
Ltac split_branches :=
  repeat (cbv beta iota;
          match goal with
          | |- context [match ?x with _ => _ end] =>
              lazymatch type of x with
              | Handler => fail
              | _ => destruct x eqn:?
              end
          end);
  cbv beta iota.

(** X1: [startTask] with an empty or white-space-only goal text (any
    white space [trim] removes, U+3000 included) sends no request and
    changes nothing at all; with any other text it posts the text as
    typed (not trimmed) to start-task. *)
Theorem startTask_blank_task (s : State) :
  (blank (task s) = true ->
   sent startTask s = None /\ forall o now, run startTask o now s = s) /\
  (blank (task s) = false -> sent startTask s = Some (PostStartTask (task s))).
Proof.
  unfold sent, run, startTask. rewrite truthy_trim_blank.
  split; intros H; rewrite H; cbn; [|reflexivity].
  split; [reflexivity|]. intros _ _. destruct s; reflexivity.
Qed.

Lemma startTask_blank_task_witness :
  let s := setTask (" " ++ Utf8.ideographicSpace)%string Tea.boiled in
  sent startTask s = None /\ run startTask (Response true (Some Tea.started)) "" s = s /\
  sent startTask (setTask " tea " initial) = Some (PostStartTask " tea ").
Proof.
  cbv zeta. split; [|split].
  - apply (startTask_blank_task
             (setTask (" " ++ Utf8.ideographicSpace)%string Tea.boiled)). reflexivity.
  - apply (startTask_blank_task
             (setTask (" " ++ Utf8.ideographicSpace)%string Tea.boiled)). reflexivity.
  - apply (startTask_blank_task (setTask " tea " initial)). reflexivity.
Defined.

(** X2: an accepted start (success status, JSON object) always leaves a
    non-empty goal (the service's goal when it sends a non-empty one,
    else the text typed), index 0, an empty history and no options; currentStep is the service's
    currentStep when it sends a non-empty one, else the head of the new
    steps list, else empty; the evidence inputs are not touched. *)
Theorem startTask_accepted (s : State) (d : Data) (now : string) :
  blank (task s) = false ->
  let s' := run startTask (Response true (Some d)) now s in
  goal s' <> "" /\
  (forall g, d_goal d = Some g -> g <> "" -> goal s' = g) /\
  (d_goal d = None \/ d_goal d = Some "" -> goal s' = task s) /\
  taskId s' = match d_taskId d with Some i => i | None => "" end /\
  steps s' = match d_steps d with Some l => l | None => [] end /\
  currentIndex s' = 0 /\ history s' = [] /\ options s' = [] /\
  (forall c, d_currentStep d = Some c -> c <> "" -> currentStep s' = c) /\
  (d_currentStep d = None \/ d_currentStep d = Some "" ->
   currentStep s' = elementOrEmpty (steps s') 0) /\
  image s' = image s /\ textNote s' = textNote s /\ loading s' = false.
Proof.
  intros Hb s'. subst s'. unfold run, startTask.
  rewrite truthy_trim_blank, Hb. cbn [negb].
  apply blank_false_not_empty in Hb.
  cbn -[JS.orElse JS.get]. rewrite !JSFacts.orElse_empty.
  repeat match goal with |- _ /\ _ => split end; try reflexivity.
  - destruct (d_goal d) as [g|]; cbn; [|exact Hb].
    destruct (JS.truthy g) eqn:T; [now apply JSFacts.truthy_iff | exact Hb].
  - intros g -> Hg. cbn. apply JSFacts.truthy_iff in Hg. now rewrite Hg.
  - intros [-> | ->]; reflexivity.
  - intros c -> Hc. cbn. apply JSFacts.truthy_iff in Hc. now rewrite Hc.
  - unfold elementOrEmpty. intros [-> | ->]; cbn; destruct (d_steps d); reflexivity.
Qed.

Lemma startTask_accepted_witness :
  let s := setTask "I want to make tea" initial in
  let s' := run startTask (Response true (Some Tea.anonymous)) "" s in
  goal s' = "make tea" /\ goal s' <> "" /\ taskId s' = "" /\
  currentStep s' = "boil water" /\ currentIndex s' = 0 /\ history s' = [].
Proof.
  destruct (startTask_accepted (setTask "I want to make tea" initial) Tea.anonymous "")
    as (Hg & Hadopt & _ & Hi & _ & Hx & Hh & _ & _ & Hc & _); [reflexivity|].
  cbv zeta. split; [apply Hadopt; [reflexivity | discriminate]|].
  split; [exact Hg|]. split; [exact Hi|].
  split; [rewrite Hc; [reflexivity | now left] |]. split; [exact Hx | exact Hh].
Defined.

(** X3: a start that fails (rejected request, error status or null body)
    has already cleared taskId before the request; goal, steps,
    currentStep, currentIndex, history and options stay as they were, the
    message reads "Error starting task" and the busy flag is released. *)
Theorem startTask_failed (s : State) (o : Outcome) (now : string) :
  blank (task s) = false ->
  failedOutcome o = true ->
  let s' := run startTask o now s in
  taskId s' = "" /\ goal s' = goal s /\ steps s' = steps s /\
  currentStep s' = currentStep s /\ currentIndex s' = currentIndex s /\
  history s' = history s /\ options s' = options s /\
  message s' = "Error starting task" /\ loading s' = false.
Proof.
  intros Hb Hf s'. subst s'. unfold run, startTask.
  rewrite truthy_trim_blank, Hb. cbn [negb].
  destruct o as [|[|] [d|]]; try discriminate Hf; cbn; repeat split.
Qed.

Lemma startTask_failed_witness :
  let s := setTask "again" Tea.boiled in
  let s' := run startTask (Response false (Some Tea.started)) "" s in
  taskId s = "t1" /\ taskId s' = "" /\ goal s' = "make tea" /\
  List.length (history s') = 1%nat /\ message s' = "Error starting task".
Proof.
  destruct (startTask_failed (setTask "again" Tea.boiled)
              (Response false (Some Tea.started)) "")
    as (Hi & Hg & _ & _ & _ & Hh & _ & Hm & _); try reflexivity.
  cbv zeta. rewrite Hi, Hg, Hh, Hm. repeat split.
Defined.

(** X4: a passed verification that carries a nextSteps list adopts the
    list wholesale, whatever nextStep says: steps is the new list,
    currentIndex is 0, currentStep is its head (empty for an empty list)
    and options is cleared. *)
Theorem verifyStep_passed_replan
    (s : State) (ok : bool) (d : Data) (now : string) (nextSteps : list string) :
  missingEvidence s = false ->
  d_done d = false ->
  d_passed d = true ->
  d_nextSteps d = Some nextSteps ->
  let s' := run verifyStep (Response ok (Some d)) now s in
  steps s' = nextSteps /\ currentIndex s' = 0 /\
  currentStep s' = elementOrEmpty nextSteps 0 /\ options s' = [].
Proof.
  intros Hev Hdone Hpass Hlist s'. subst s'. verify_steps Hev.
  rewrite Hdone, Hpass, Hlist, JSFacts.orElse_get_empty. cbn. repeat split.
Qed.

Lemma verifyStep_passed_replan_witness :
  let s := withEvidence None "kettle is whistling" Tea.boiled in
  let s' := run verifyStep (Response true (Some (Tea.replan true ["pour"; "drink"])))
              "2025-01-01T10:05:00.000Z" s in
  currentIndex s = 1 /\ steps s' = ["pour"; "drink"] /\ currentIndex s' = 0 /\
  currentStep s' = "pour".
Proof.
  destruct (verifyStep_passed_replan
              (withEvidence None "kettle is whistling" Tea.boiled) true
              (Tea.replan true ["pour"; "drink"]) "2025-01-01T10:05:00.000Z"
              ["pour"; "drink"])
    as (Hs & Hi & Hc & _); try reflexivity.
  cbv zeta. rewrite Hs, Hi, Hc. repeat split.
Defined.

(** X5: [verifyStep] clears the evidence inputs exactly when the response
    says [passed]: then image and text note are reset (also on a
    completion response); on a response that did not pass, both stay
    attached (also when the response reports [done]). *)
Theorem verifyStep_clears_evidence_iff_passed
    (s : State) (ok : bool) (d : Data) (now : string) :
  missingEvidence s = false ->
  let s' := run verifyStep (Response ok (Some d)) now s in
  (d_passed d = true -> image s' = None /\ textNote s' = "") /\
  (d_passed d = false -> image s' = image s /\ textNote s' = textNote s).
Proof.
  intros Hev s'. subst s'. verify_steps Hev.
  split; intros Hp; rewrite Hp; rewrite batch_app;
    split_branches; cbn; split; reflexivity.
Qed.

Lemma verifyStep_clears_evidence_iff_passed_witness :
  let s := withEvidence (Some {| fileName := "pot.jpg" |}) "leaves are in" Tea.boiled in
  let failed := run verifyStep
                  (Response true (Some (Tea.verdict false "too dark" None None))) "" s in
  let passed := run verifyStep
                  (Response true (Some (Tea.verdict true "steeped" None None))) "" s in
  (image failed = Some {| fileName := "pot.jpg" |} /\ textNote failed = "leaves are in") /\
  (image passed = None /\ textNote passed = "").
Proof.
  cbv zeta. split.
  - apply (verifyStep_clears_evidence_iff_passed
             (withEvidence (Some {| fileName := "pot.jpg" |}) "leaves are in" Tea.boiled)
             true (Tea.verdict false "too dark" None None) ""); reflexivity.
  - apply (verifyStep_clears_evidence_iff_passed
             (withEvidence (Some {| fileName := "pot.jpg" |}) "leaves are in" Tea.boiled)
             true (Tea.verdict true "steeped" None None) ""); reflexivity.
Defined.

(** X6: when the verify request itself fails (rejected, or a null body
    under any status), nothing is reconciled: goal, taskId, steps,
    currentStep, currentIndex and history are unchanged and the evidence
    stays attached; only options (cleared before the request) and the
    message change, and the busy flag is released. *)
Theorem verifyStep_gateway_failure (s : State) (o : Outcome) (now : string) :
  missingEvidence s = false ->
  (o = Rejected \/ exists ok, o = Response ok None) ->
  let s' := run verifyStep o now s in
  goal s' = goal s /\ taskId s' = taskId s /\ steps s' = steps s /\
  currentStep s' = currentStep s /\ currentIndex s' = currentIndex s /\
  history s' = history s /\ image s' = image s /\ textNote s' = textNote s /\
  options s' = [] /\ message s' = "Error verifying step" /\ loading s' = false.
Proof.
  intros Hev Ho s'. subst s'. verify_steps Hev.
  destruct Ho as [-> | [ok ->]]; cbn; repeat split.
Qed.

Lemma verifyStep_gateway_failure_witness :
  let s := setOptions ["retry"] (withEvidence None "leaves are in" Tea.boiled) in
  let s' := run verifyStep Rejected "" s in
  currentIndex s' = 1 /\ List.length (history s') = 1%nat /\
  textNote s' = "leaves are in" /\ options s' = [] /\
  message s' = "Error verifying step".
Proof.
  destruct (verifyStep_gateway_failure
              (setOptions ["retry"] (withEvidence None "leaves are in" Tea.boiled))
              Rejected "")
    as (_ & _ & _ & _ & Hi & Hh & _ & Ht & Ho & Hm & _);
    [reflexivity | now left |].
  cbv zeta. rewrite Hi, Hh, Ht, Ho, Hm. repeat split.
Defined.

(** X7: every request [verifyStep] sends is a verify-step request for the
    session's taskId that carries at least one proof: the attached image,
    or a text note.  A note that is sent is never empty and is the text
    typed without the white space around it: the text is the note between
    two blank texts.  The note is left out exactly when the text is
    blank. *)
Theorem verifyStep_request_carries_proof (s : State) (rq : Request) :
  sent verifyStep s = Some rq ->
  exists note,
    rq = PostVerifyStep (taskId s) (image s) note /\
    (image s <> None \/ note <> None) /\
    (forall t, note = Some t ->
       t = JS.trim (textNote s) /\ t <> "" /\
       exists lead trail,
         textNote s = (lead ++ t ++ trail)%string /\
         blank lead = true /\ blank trail = true) /\
    (note = None <-> blank (textNote s) = true).
Proof.
  unfold sent, verifyStep. destruct (missingEvidence s) eqn:Hev; [discriminate|].
  intros [= <-]. eexists. split; [reflexivity|].
  apply missingEvidence_false_iff in Hev. rewrite truthy_trim_blank.
  destruct (blank (textNote s)) eqn:B; cbn.
  - split; [destruct Hev as [H|H]; [now left | discriminate]|].
    split; [discriminate | tauto].
  - split; [right; discriminate|]. split.
    + intros t [= <-]. split; [reflexivity|]. split.
      * intros E. apply JSFacts.trim_empty_iff in E. congruence.
      * apply JSFacts.trim_split.
    + split; discriminate.
Qed.

Lemma verifyStep_request_carries_proof_witness :
  exists note,
    PostVerifyStep "t1" None (Some Utf8.voila) = PostVerifyStep "t1" None note /\
    (forall t, note = Some t -> t <> "" /\
       exists lead trail,
         (Utf8.noBreakSpace ++ Utf8.voila ++ " ")%string = (lead ++ t ++ trail)%string /\
         blank lead = true /\ blank trail = true).
Proof.
  destruct (verifyStep_request_carries_proof
              (withEvidence None (Utf8.noBreakSpace ++ Utf8.voila ++ " ")%string Tea.boiled)
              (PostVerifyStep "t1" None (Some Utf8.voila)) eq_refl)
    as (note & Hrq & _ & Ht & _).
  exists note. split; [exact Hrq|].
  intros t Hn. destruct (Ht t Hn) as (_ & Hne & Hsplit). split; assumption.
Defined.

(** X8: every response object that does not report completion, under any
    status and whether it passed or not, appends exactly one entry to the
    history: for the step that was current when Verify was pressed, with
    the response's verdict and reason, the time of resolution, the image
    flag, and the text note as typed (null when empty). *)
Theorem verifyStep_records_attempt (s : State) (ok : bool) (d : Data) (now : string) :
  missingEvidence s = false ->
  d_done d = false ->
  let s' := run verifyStep (Response ok (Some d)) now s in
  exists e,
    history s' = history s ++ [e] /\
    h_step e = currentStep s /\ h_ts e = now /\
    res_passed (h_result e) = d_passed d /\ res_reason (h_result e) = d_reason d /\
    (ev_image (h_evidence e) = true <-> image s <> None) /\
    (textNote s = "" -> ev_text (h_evidence e) = None) /\
    (textNote s <> "" -> ev_text (h_evidence e) = Some (textNote s)).
Proof.
  intros Hev Hdone s'. subst s'. exists (attemptEntry s d now).
  rewrite history_verifyStep, Hev, Hdone. cbn.
  repeat match goal with |- _ /\ _ => split end; try reflexivity.
  - destruct (image s); cbn; split; congruence.
  - intros ->. reflexivity.
  - intros H. apply JSFacts.truthy_iff in H. now rewrite H.
Qed.

Lemma verifyStep_records_attempt_witness :
  let s := withEvidence None "leaves are in" Tea.boiled in
  let s' := run verifyStep
              (Response false (Some (Tea.verdict false "too dark" None None)))
              "2025-01-01T10:05:00.000Z" s in
  exists e, history s' = history s ++ [e] /\ h_step e = "steep tea" /\
            res_passed (h_result e) = false /\
            ev_text (h_evidence e) = Some "leaves are in".
Proof.
  destruct (verifyStep_records_attempt
              (withEvidence None "leaves are in" Tea.boiled) false
              (Tea.verdict false "too dark" None None) "2025-01-01T10:05:00.000Z")
    as (e & Hh & Hs & _ & Hp & _ & _ & _ & Ht); try reflexivity.
  exists e. split; [exact Hh|]. split; [exact Hs|]. split; [exact Hp|].
  apply Ht. discriminate.
Defined.

(** X9: the busy flag.  Whenever one of the four handlers sends a
    request, the state it leaves while the request is in flight has
    [loading] set and the message cleared, and whatever the outcome of
    the request, the state after it has settled has [loading] released. *)
Theorem busy_while_in_flight
    (h : State -> Handler) (c : State) (before : Update) (rq : Request)
    (after : Outcome -> string -> Update) :
  (h = startTask \/ h = verifyStep \/ h = doneStep \/ exists opt, h = applyOption opt) ->
  h c = Fetch before rq after ->
  (forall s, loading (before s) = true /\ message (before s) = "") /\
  (forall o now s, loading (after o now s) = false).
Proof.
  intros [-> | [-> | [-> | [opt ->]]]] H.
  - unfold startTask in H. destruct (negb _); [discriminate|].
    injection H as <- _ <-. split; [intros s; split; reflexivity|].
    intros o now s. now rewrite batch_app.
  - unfold verifyStep in H. destruct (missingEvidence c); [discriminate|].
    injection H as <- _ <-. split; [intros s; split; reflexivity|].
    intros o now s. unfold verifyStep_after. now rewrite batch_app.
  - unfold doneStep in H.
    injection H as <- _ <-. split; [intros s; split; reflexivity|].
    intros o now s. unfold doneStep_after. now rewrite batch_app.
  - unfold applyOption in H. destruct (negb _); [discriminate|].
    injection H as <- _ <-. split; [intros s; split; reflexivity|].
    intros o now s. unfold applyOption_after. now rewrite batch_app.
Qed.

Lemma busy_while_in_flight_witness :
  loading (batch [setLoading true; setMessage ""; setOptions []] Tea.boiled) = true /\
  loading (doneStep_after Tea.boiled Rejected "" (setLoading true Tea.boiled)) = false.
Proof.
  destruct (busy_while_in_flight doneStep Tea.boiled
              (batch [setLoading true; setMessage ""; setOptions []])
              (PostMarkStepDone "t1") (doneStep_after Tea.boiled))
    as [Hb Ha]; [right; right; now left | reflexivity |].
  split; [apply Hb | apply Ha].
Defined.

(** X10: [doneStep] on an accepted response (completion or not) always
    clears the evidence inputs and leaves no options; the request is
    sent with the session's taskId whatever the state is. *)
Theorem doneStep_accepted_clears_evidence (s : State) (d : Data) (now : string) :
  let s' := run doneStep (Response true (Some d)) now s in
  sent doneStep s = Some (PostMarkStepDone (taskId s)) /\
  image s' = None /\ textNote s' = "" /\ options s' = [] /\
  goal s' = goal s /\ taskId s' = taskId s.
Proof.
  cbv zeta. unfold sent, run, doneStep, doneStep_after, doneStep_handle.
  destruct (d_done d); cbn; repeat split.
Qed.

(** X11: when the mark-done request fails (rejected, error status or null
    body) nothing is recorded: history, steps, currentStep and
    currentIndex are unchanged and the evidence stays attached; options
    were cleared before the request and the message reports the error. *)
Theorem doneStep_failed (s : State) (o : Outcome) (now : string) :
  failedOutcome o = true ->
  let s' := run doneStep o now s in
  goal s' = goal s /\ taskId s' = taskId s /\ steps s' = steps s /\
  currentStep s' = currentStep s /\ currentIndex s' = currentIndex s /\
  history s' = history s /\ image s' = image s /\ textNote s' = textNote s /\
  options s' = [] /\ message s' = "Error marking step as done" /\ loading s' = false.
Proof.
  intros Hf s'. subst s'. unfold run, doneStep, doneStep_after.
  destruct o as [|[|] [d|]]; try discriminate Hf; cbn; repeat split.
Qed.

Lemma doneStep_failed_witness :
  let s := setOptions ["retry"] (withEvidence None "leaves are in" Tea.boiled) in
  let s' := run doneStep (Response false (Some Tea.emptyObject)) "" s in
  currentIndex s' = 1 /\ List.length (history s') = 1%nat /\
  textNote s' = "leaves are in" /\ options s' = [].
Proof.
  destruct (doneStep_failed
              (setOptions ["retry"] (withEvidence None "leaves are in" Tea.boiled))
              (Response false (Some Tea.emptyObject)) "")
    as (_ & _ & _ & _ & Hi & Hh & _ & Ht & Ho & _); [reflexivity|].
  cbv zeta. rewrite Hi, Hh, Ht, Ho. repeat split.
Defined.

(** X12: an accepted [applyOption("restart")] adopts the response's step
    list (empty when absent), makes currentStep the response's
    currentStep or else the head of that list, resets currentIndex to 0
    and empties history and options, while goal, taskId and the evidence
    inputs are kept. *)
Theorem applyOption_restart (s : State) (d : Data) (now : string) :
  let s' := run (applyOption "restart") (Response true (Some d)) now s in
  steps s' = match d_steps d with Some l => l | None => [] end /\
  (forall c, d_currentStep d = Some c -> c <> "" -> currentStep s' = c) /\
  (d_currentStep d = None \/ d_currentStep d = Some "" ->
   currentStep s' = elementOrEmpty (steps s') 0) /\
  currentIndex s' = 0 /\ history s' = [] /\ options s' = [] /\
  goal s' = goal s /\ taskId s' = taskId s /\
  image s' = image s /\ textNote s' = textNote s.
Proof.
  cbv zeta. unfold run, applyOption, applyOption_after, applyOption_handle.
  cbn -[JS.orElse JS.get]. rewrite !JSFacts.orElse_empty.
  repeat match goal with |- _ /\ _ => split end; try reflexivity.
  - intros c -> Hc. cbn. apply JSFacts.truthy_iff in Hc. now rewrite Hc.
  - unfold elementOrEmpty. intros [-> | ->]; cbn; destruct (d_steps d); reflexivity.
Qed.

Lemma applyOption_restart_witness :
  let s' := run (applyOption "restart") (Response true (Some Tea.anonymous)) "" Tea.boiled in
  currentStep s' = "boil water" /\ currentIndex s' = 0 /\ history s' = [] /\
  taskId s' = "t1".
Proof.
  destruct (applyOption_restart Tea.boiled Tea.anonymous "")
    as (_ & _ & Hc & Hi & Hh & _ & _ & Ht & _).
  cbv zeta. split; [rewrite Hc; [reflexivity | now left] |].
  rewrite Hi, Hh, Ht. repeat split.
Defined.

(** X13: [applyOption] never rejects an action locally unless it is the
    empty string, for which it does nothing.  Any other action is sent
    with the taskId; an action other than "quit" and "restart" leaves the
    session untouched whatever the outcome (the suggested options stay on
    the page), and so does every action whose request fails. *)
Theorem applyOption_other_actions (opt : string) (s : State) (o : Outcome) (now : string) :
  (opt = "" -> sent (applyOption opt) s = None /\ run (applyOption opt) o now s = s) /\
  (opt <> "" -> sent (applyOption opt) s = Some (PostApplyAction opt (taskId s))) /\
  ((opt <> "quit" /\ opt <> "restart") \/ failedOutcome o = true ->
   sameSession (run (applyOption opt) o now s) s).
Proof.
  split; [|split].
  - intros ->. split; [reflexivity | destruct s; reflexivity].
  - intros H. apply JSFacts.truthy_iff in H.
    unfold sent, applyOption. now rewrite H.
  - intros H. unfold run, applyOption, applyOption_after, applyOption_handle, sameSession.
    destruct (JS.truthy opt); cbn [negb]; [|cbn; repeat split].
    destruct o as [|[|] [d|]]; try (cbn; repeat split; fail).
    destruct H as [[Hq Hr] | Hf]; [|discriminate Hf].
    apply String.eqb_neq in Hq, Hr. rewrite Hq, Hr. cbn. repeat split.
Qed.

Lemma applyOption_other_actions_witness :
  let s := setOptions ["retry"; "skip"] Tea.boiled in
  sent (applyOption "skip") s = Some (PostApplyAction "skip" "t1") /\
  sameSession (run (applyOption "skip") (Response true (Some Tea.emptyObject)) "" s) s /\
  sameSession (run (applyOption "quit") Rejected "" s) s.
Proof.
  cbv zeta. split; [|split].
  - apply (applyOption_other_actions "skip" (setOptions ["retry"; "skip"] Tea.boiled)
             Rejected ""). discriminate.
  - apply (applyOption_other_actions "skip" (setOptions ["retry"; "skip"] Tea.boiled)
             (Response true (Some Tea.emptyObject)) "").
    left. split; discriminate.
  - apply (applyOption_other_actions "quit" (setOptions ["retry"; "skip"] Tea.boiled)
             Rejected "").
    right. reflexivity.
Defined.

(** ** Invariants of the session along sequences of events *)

Lemma orElse_not_empty (x : option string) (y : string) :
  y <> "" -> JS.orElse x y <> "".
Proof.
  intros Hy. destruct x as [v|]; cbn; [|exact Hy].
  destruct (JS.truthy v) eqn:T; [now apply JSFacts.truthy_iff | exact Hy].
Qed.

Lemma goal_verifyStep (s : State) (o : Outcome) (now : string) :
  goal (run verifyStep o now s) = goal s.
Proof.
  unfold run, verifyStep, verifyStep_after, verifyStep_handle.
  split_branches; reflexivity.
Qed.

Lemma goal_doneStep (s : State) (o : Outcome) (now : string) :
  goal (run doneStep o now s) = goal s.
Proof.
  unfold run, doneStep, doneStep_after, doneStep_handle.
  split_branches; reflexivity.
Qed.

Lemma step_keeps_idle_clean (s : State) (e : Event) :
  idleIsClean s -> offered s e = true -> idleIsClean (step s e).
Proof.
  intros Hclean Hoff.
  destruct e as [v | v | f | o | o now | o now | opt o]; cbn [step offered] in *.
  - exact Hclean.
  - exact Hclean.
  - exact Hclean.
  - apply andb_true_iff in Hoff. destruct Hoff as [Hg _].
    apply negb_true_iff, JSFacts.truthy_false_iff in Hg.
    destruct (Hclean Hg) as (H1 & H2 & H3 & H4 & H5 & H6).
    unfold run, startTask. rewrite truthy_trim_blank.
    destruct (blank (task s)) eqn:B; cbn [negb]; [exact Hclean|].
    apply blank_false_not_empty in B.
    destruct o as [|[|] [d|]]; intros G; cbn in G |- *;
      try (rewrite H2, H3, H4, H5, H6; repeat split; fail).
    exfalso. revert G. now apply orElse_not_empty.
  - apply andb_true_iff in Hoff. destruct Hoff as [Hoff _].
    apply andb_true_iff in Hoff. destruct Hoff as [Hg _].
    apply JSFacts.truthy_iff in Hg.
    intros G. rewrite goal_verifyStep in G. contradiction.
  - apply andb_true_iff in Hoff. destruct Hoff as [Hoff _].
    apply andb_true_iff in Hoff. destruct Hoff as [Hg _].
    apply JSFacts.truthy_iff in Hg.
    intros G. rewrite goal_doneStep in G. contradiction.
  - apply andb_true_iff in Hoff. destruct Hoff as [Hoff _].
    apply andb_true_iff in Hoff. destruct Hoff as [Hg _].
    apply JSFacts.truthy_iff in Hg.
    unfold run, applyOption, applyOption_after, applyOption_handle.
    split_branches; intros G; cbn in G |- *; try contradiction; repeat split.
Qed.

(** X14: an idle page is clean.  Along every sequence of events that the
    rendered page offers, starting from a state where an empty goal comes
    with an empty session, an empty goal always comes with an empty
    taskId, steps, currentStep, history and options and index 0: a task
    can only be started from a session that holds nothing of an earlier
    one. *)
Theorem idle_session_is_clean (s : State) (es : list Event) :
  idleIsClean s ->
  reachable_by s es = true ->
  idleIsClean (exec s es).
Proof.
  revert s. induction es as [|e es IH]; intros s Hclean Hreach; [exact Hclean|].
  cbn in Hreach. apply andb_true_iff in Hreach. destruct Hreach as [Hoff Hrest].
  cbn [exec fold_left]. apply IH; [|exact Hrest].
  now apply step_keeps_idle_clean.
Qed.

Lemma idle_session_is_clean_witness :
  let es := [ EvSetTask "I want to make tea";
              EvStartTask (Response true (Some Tea.started));
              EvSetTextNote "kettle is whistling";
              EvVerifyStep
                (Response true (Some (Tea.verdict false "no steam" None (Some ["retry"]))))
                "2025-01-01T10:00:00.000Z";
              EvApplyOption "quit" (Response true (Some Tea.emptyObject)) ] in
  goal (exec initial es) = "" /\ idleIsClean (exec initial es).
Proof.
  cbv zeta. split; [reflexivity|].
  apply (idle_session_is_clean initial); [|reflexivity].
  intros _. repeat split.
Defined.

Lemma step_keeps_index_nonneg (s : State) (e : Event) :
  0 <= currentIndex s -> 0 <= currentIndex (step s e).
Proof.
  intros H.
  destruct e as [v | v | f | o | o now | o now | opt o]; cbn [step];
    try exact H.
  - unfold run, startTask. split_branches; cbn; lia.
  - unfold run, verifyStep, verifyStep_after, verifyStep_handle.
    split_branches; cbn; lia.
  - unfold run, doneStep, doneStep_after, doneStep_handle.
    split_branches; cbn; lia.
  - unfold run, applyOption, applyOption_after, applyOption_handle.
    split_branches; cbn; lia.
Qed.

(** X15: currentIndex never becomes negative.  Whatever events occur and
    whatever the gateway answers, a non-negative index stays
    non-negative: it is only ever set to 0, to its successor, or to a
    position [indexOf] found. *)
Theorem currentIndex_never_negative (s : State) (es : list Event) :
  0 <= currentIndex s -> 0 <= currentIndex (exec s es).
Proof.
  revert s. induction es as [|e es IH]; intros s H; [exact H|].
  cbn [exec fold_left]. apply IH. now apply step_keeps_index_nonneg.
Qed.

Lemma currentIndex_never_negative_witness :
  0 <= currentIndex
         (exec Tea.boiled
            [ EvSetTextNote "x";
              EvVerifyStep
                (Response true (Some (Tea.verdict true "ok" (Some "boil water") None))) "" ]).
Proof.
  apply (currentIndex_never_negative Tea.boiled). cbn. lia.
Defined.

Lemma step_leaves_evidence (s : State) (e : Event) :
  leavesEvidence e = true ->
  image (step s e) = image s /\ textNote (step s e) = textNote s.
Proof.
  intros H.
  destruct e as [v | v | f | o | o now | o now | opt o]; try discriminate H;
    cbn [step].
  - split; reflexivity.
  - unfold run, startTask. split_branches; split; reflexivity.
  - unfold run, applyOption, applyOption_after, applyOption_handle.
    split_branches; split; reflexivity.
Qed.

(** X16: starting a task and applying an action (restart and quit
    included) never touch the evidence inputs: along any sequence of
    such events the attached image and the text note stay what they
    were, so evidence entered for one task is still attached after a
    quit and a new start. *)
Theorem evidence_survives_restart_and_quit (s : State) (es : list Event) :
  Forall (fun e => leavesEvidence e = true) es ->
  image (exec s es) = image s /\ textNote (exec s es) = textNote s.
Proof.
  intros H. revert s. induction H as [|e es He _ IH]; intros s; [now split|].
  cbn [exec fold_left]. destruct (IH (step s e)) as [Hi Ht].
  destruct (step_leaves_evidence s e He) as [Hi' Ht'].
  unfold exec in Hi, Ht. split; congruence.
Qed.

Lemma evidence_survives_restart_and_quit_witness :
  let s := withEvidence (Some {| fileName := "pot.jpg" |}) "leaves are in" Tea.boiled in
  let s' := exec s [ EvApplyOption "quit" (Response true (Some Tea.emptyObject));
                     EvSetTask "I want to make coffee";
                     EvStartTask (Response true (Some Tea.started)) ] in
  history s' = [] /\ image s' = Some {| fileName := "pot.jpg" |} /\
  textNote s' = "leaves are in".
Proof.
  cbv zeta. split; [reflexivity|].
  apply (evidence_survives_restart_and_quit
           (withEvidence (Some {| fileName := "pot.jpg" |}) "leaves are in" Tea.boiled)).
  repeat constructor.
Defined.

(** ** The camera *)

Lemma errorMessage_not_empty (name : string) : errorMessage name <> "".
Proof. unfold errorMessage. split_branches; discriminate. Qed.

Lemma in_stopTracks (stream : MediaStream) (p : Page) (t : Track) :
  In t (live (stopTracks stream p)) <-> In t (live p) /\ ~ In t (getTracks stream).
Proof.
  unfold stopTracks, onLive. cbn [live]. rewrite filter_In, negb_true_iff.
  split; intros [H1 H2]; split; try assumption.
  - intros Hin. assert (E : existsb (Nat.eqb t) (getTracks stream) = true).
    { apply existsb_exists. exists t. split; [assumption | apply Nat.eqb_refl]. }
    congruence.
  - destruct (existsb (Nat.eqb t) (getTracks stream)) eqn:E; [|reflexivity].
    apply existsb_exists in E. destruct E as (u & Hu & E).
    apply Nat.eqb_eq in E. subst u. contradiction.
Qed.

Lemma no_element_is_nil {A : Type} (l : list A) : (forall x, ~ In x l) -> l = [].
Proof.
  destruct l as [|a l]; [reflexivity|]. intros H. exfalso. apply (H a). now left.
Qed.

(** X17: when the camera cannot be started (no media devices API, or
    [getUserMedia] rejects), [startCamera] shows a non-empty error
    message, leaves camera mode, and acquires nothing: the active flag,
    the held stream, the captured image, the running tracks and the
    session are as before.  A missing API and an unknown error name both
    give the generic message; a denied permission gives its own. *)
Theorem startCamera_failure (p : Page) (o : MediaOutcome) :
  (forall stream, o <> GetUserMediaResolved stream) ->
  let p' := startCamera o p in
  cameraError (camera p') <> "" /\ useCamera (camera p') = false /\
  cameraActive (camera p') = cameraActive (camera p) /\
  cameraStream (camera p') = cameraStream (camera p) /\
  capturedImage (camera p') = capturedImage (camera p) /\
  live p' = live p /\ session p' = session p /\ video p' = video p /\
  (o = NoMediaDevices ->
   cameraError (camera p') = "Could not access camera. Please check permissions.") /\
  (o = GetUserMediaRejected "NotAllowedError" ->
   cameraError (camera p') = "Camera access denied. Please allow camera permissions.").
Proof.
  intros Ho p'. subst p'.
  destruct o as [|name|stream]; [| |now destruct (Ho stream)]; cbn -[errorMessage];
    (split; [apply errorMessage_not_empty|]);
    repeat match goal with |- _ /\ _ => split end;
    try reflexivity; try discriminate.
  intros [= ->]. reflexivity.
Qed.

Lemma startCamera_failure_witness :
  let p := setUseCamera true initialPage in
  let p' := startCamera (GetUserMediaRejected "NotReadableError") p in
  cameraError (camera p') = "Camera is being used by another application." /\
  useCamera (camera p') = false /\ cameraActive (camera p') = false /\ live p' = [].
Proof.
  destruct (startCamera_failure (setUseCamera true initialPage)
              (GetUserMediaRejected "NotReadableError"))
    as (_ & Hu & Ha & _ & _ & Hl & _); [discriminate|].
  cbv zeta. split; [reflexivity|]. rewrite Hu, Ha, Hl. repeat split.
Defined.

(** X18: when [getUserMedia] resolves, [startCamera] clears the error,
    stores the stream and marks the camera active; every track of the
    stream is running, no track that was running is stopped by the
    handler, and the stream is assigned to the preview only if the video
    element exists at that moment. *)
Theorem startCamera_granted (p : Page) (stream : MediaStream) :
  let p' := startCamera (GetUserMediaResolved stream) p in
  cameraError (camera p') = "" /\ cameraActive (camera p') = true /\
  cameraStream (camera p') = Some stream /\
  (forall t, In t (live p') <-> In t (live p) \/ In t (getTracks stream)) /\
  useCamera (camera p') = useCamera (camera p) /\ session p' = session p /\
  (video p = None -> video p' = None) /\
  (video p <> None -> video p' = Some {| srcObject := Some stream |}).
Proof.
  cbv zeta. cbn. repeat match goal with |- _ /\ _ => split end; try reflexivity.
  - intros t. apply in_app_iff.
  - intros ->. reflexivity.
  - destruct (video p); [reflexivity | congruence].
Qed.

Lemma startCamera_granted_witness :
  let p' := startCamera (GetUserMediaResolved {| getTracks := [7%nat] |}) initialPage in
  cameraActive (camera p') = true /\ video p' = None.
Proof.
  destruct (startCamera_granted initialPage {| getTracks := [7%nat] |})
    as (_ & Ha & _ & _ & _ & _ & Hv & _).
  cbv zeta. split; [exact Ha | now apply Hv].
Defined.

(** X19: [stopCamera] releases the camera and is idempotent: afterwards
    the camera is inactive, no stream is held, the preview has no source,
    no track of the stream that was held is running, tracks of other
    streams are not touched, and stopping again changes nothing. *)
Theorem stopCamera_releases (p : Page) :
  let p' := stopCamera (camera p) p in
  cameraActive (camera p') = false /\ cameraStream (camera p') = None /\
  (forall v, video p' = Some v -> srcObject v = None) /\
  (forall t, In t (live p') <->
             In t (live p) /\
             forall stream, cameraStream (camera p) = Some stream ->
                            ~ In t (getTracks stream)) /\
  session p' = session p /\
  stopCamera (camera p') p' = p'.
Proof.
  cbv zeta. unfold stopCamera.
  destruct p as [s c v cv l]. destruct c as [a st ci u e]. cbn [camera cameraStream].
  destruct st as [stream|]; cbn -[stopTracks].
  - split; [reflexivity|]. split; [reflexivity|]. split.
    + destruct v; [intros ? [= <-]; reflexivity | discriminate].
    + split; [|split; [reflexivity | destruct v; reflexivity]].
      intros t.
      rewrite (in_stopTracks stream
                 {| session := s;
                    camera := {| cameraActive := a; cameraStream := Some stream;
                                 capturedImage := ci; useCamera := u;
                                 cameraError := e |};
                    video := v; canvas := cv; live := l |} t).
      cbn. split.
      * intros [H1 H2]. split; [assumption|]. intros ? [= <-]. assumption.
      * intros [H1 H2]. split; [assumption | now apply H2].
  - split; [reflexivity|]. split; [reflexivity|]. split.
    + destruct v; [intros ? [= <-]; reflexivity | discriminate].
    + split; [|split; [reflexivity | destruct v; reflexivity]].
      intros t. split; [intros H; split; [assumption | discriminate] | tauto].
Qed.

Lemma stopCamera_releases_witness :
  let p := startCamera (GetUserMediaResolved {| getTracks := [7%nat; 8%nat] |})
             (onLive (fun _ => [3%nat]) initialPage) in
  let p' := stopCamera (camera p) p in
  live p = [3%nat; 7%nat; 8%nat] /\ live p' = [3%nat] /\
  cameraActive (camera p') = false /\ stopCamera (camera p') p' = p'.
Proof.
  destruct (stopCamera_releases
              (startCamera (GetUserMediaResolved {| getTracks := [7%nat; 8%nat] |})
                 (onLive (fun _ => [3%nat]) initialPage)))
    as (Ha & _ & _ & _ & _ & Hi).
  cbv zeta. split; [reflexivity|]. split; [reflexivity|]. split; [exact Ha | exact Hi].
Defined.

(** What a handler does to the held stream, the active flag and the
    running tracks: nothing, a release, or an acquisition. *)
Lemma handle_camera_effect (p : Page) (e : PageEvent) :
  cameraConsistent p ->
  let q := handle p e in
  (cameraStream (camera q) = cameraStream (camera p) /\
   cameraActive (camera q) = cameraActive (camera p) /\ live q = live p) \/
  (cameraStream (camera q) = None /\ cameraActive (camera q) = false /\
   forall t, In t (live q) -> In t (live p)) \/
  (exists new, cameraStream (camera q) = Some new /\ cameraActive (camera q) = true /\
               forall t, In t (live q) -> In t (live p) \/ In t (getTracks new)).
Proof.
  intros _. cbv zeta.
  destruct p as [s c v cv l pending]. destruct c as [a st ci u er].
  destruct e as [e' | | supported | supported | answer | blob ts | ];
    unfold handle; cbn [camera pendingCamera].
  - left. repeat split.
  - unfold clickUploadImage. cbn [cameraActive].
    destruct a; [|left; repeat split].
    right. left. unfold stopCamera. cbn [cameraStream].
    destruct st as [stream|]; cbn; repeat split; try tauto.
    intros t Ht. apply filter_In in Ht. tauto.
  - left. unfold clickUseCamera. cbn [cameraActive].
    destruct a, supported; cbn -[errorMessage]; repeat split.
  - left. destruct supported; cbn -[errorMessage]; repeat split.
  - destruct (0 <? pending)%nat; [|left; repeat split].
    destruct answer as [name|stream]; cbn -[errorMessage]; [left; repeat split|].
    right. right. exists stream. repeat split. intros t. apply in_app_iff.
  - left. unfold captureImage. cbn [video canvas].
    destruct v, cv, blob; repeat split.
  - left. repeat split.
Qed.

Lemma sameStream_tracks (a b : MediaStream) :
  sameStream (Some a) (Some b) = true -> getTracks a = getTracks b.
Proof.
  cbn. destruct (list_eq_dec Nat.eq_dec (getTracks a) (getTracks b));
    [trivial | discriminate].
Qed.

Lemma commit_consistent (c : Camera) (q : Page) :
  (forall t, In t (live q) ->
     (exists stream, cameraStream (camera q) = Some stream /\ In t (getTracks stream)) \/
     (exists old, cameraStream c = Some old /\ In t (getTracks old))) ->
  (cameraActive (camera q) = true <-> cameraStream (camera q) <> None) ->
  cameraConsistent (commit c q).
Proof.
  intros HA HB.
  assert (Hvideo : forall p1 : Page,
             camera p1 = camera q ->
             (if previewShown p1
              then match video p1 with
                   | Some v => Some v
                   | None => Some {| srcObject := None |}
                   end
              else None) <> None ->
             cameraActive (camera q) = true).
  { intros p1 Hc H. destruct (previewShown p1) eqn:S; [|contradiction].
    unfold previewShown in S. apply andb_true_iff in S. destruct S as [_ S].
    now rewrite Hc in S. }
  unfold commit, cameraConsistent.
  destruct (sameStream (cameraStream c) (cameraStream (camera q))) eqn:E.
  - cbn [live camera video]. split; [|split; [exact HB | now apply Hvideo]].
    intros t Ht. destruct (HA t Ht) as [H | (old & Ho & Hin)]; [exact H|].
    rewrite Ho in E. destruct (cameraStream (camera q)) as [new|]; [|discriminate E].
    exists new. split; [reflexivity|].
    now rewrite <- (sameStream_tracks old new E).
  - destruct (cameraStream c) as [old|].
    + cbn [live camera video]. split; [|split; [exact HB | now apply Hvideo]].
      intros t Ht. apply in_stopTracks in Ht. destruct Ht as [Ht Hout].
      destruct (HA t Ht) as [H | (old' & [= <-] & Hin)]; [exact H | contradiction].
    + cbn [live camera video]. split; [|split; [exact HB | now apply Hvideo]].
      intros t Ht. destruct (HA t Ht) as [H | (old' & Ho & _)];
        [exact H | discriminate Ho].
Qed.

Lemma pageStep_consistent (p : Page) (e : PageEvent) :
  cameraConsistent p -> cameraConsistent (pageStep p e).
Proof.
  intros Hp. pose proof Hp as (Hlive & Hact & _).
  unfold pageStep. apply commit_consistent;
    destruct (handle_camera_effect p e Hp) as
      [(Hs & Ha & Hl) | [(Hs & Ha & Hl) | (new & Hs & Ha & Hl)]].
  - intros t Ht. rewrite Hl in Ht. left. rewrite Hs. now apply Hlive.
  - intros t Ht. right. apply Hlive. now apply Hl.
  - intros t Ht. destruct (Hl t Ht) as [H | H].
    + right. now apply Hlive.
    + left. exists new. now split.
  - now rewrite Hs, Ha.
  - rewrite Hs, Ha. split; [discriminate | intros H; now destruct H].
  - rewrite Hs, Ha. split; [discriminate | reflexivity].
Qed.

(** X20: the camera is never leaked.  Whatever the user does and whatever
    the browser and the gateway answer, after every event each running
    track belongs to the stream the page holds (replacing a stream stops
    the old one's tracks through the effect cleanup), a stream is held
    exactly while the camera is marked active, and the preview elements
    exist only while it is. *)
Theorem camera_never_leaks (p : Page) (es : list PageEvent) :
  cameraConsistent p -> cameraConsistent (pageExec p es).
Proof.
  revert p. induction es as [|e es IH]; intros p H; [exact H|].
  cbn [pageExec fold_left]. apply IH. now apply pageStep_consistent.
Qed.

(** X21: the camera is released on the way out.  In a consistent page,
    switching to Upload Image leaves the camera inactive with no stream
    and no running track, and unmounting the component leaves no running
    track. *)
Theorem camera_released_on_exit (p : Page) :
  cameraConsistent p ->
  live (unmount p) = [] /\
  (let p' := pageStep p ClickUploadImage in
   live p' = [] /\ cameraStream (camera p') = None /\
   cameraActive (camera p') = false /\ useCamera (camera p') = false).
Proof.
  intros Hp. pose proof Hp as (Hlive & Hact & _). split.
  - apply no_element_is_nil. intros t Ht. unfold unmount in Ht.
    destruct (cameraStream (camera p)) as [stream|] eqn:Es.
    + apply in_stopTracks in Ht. destruct Ht as [Ht Hout].
      destruct (Hlive t Ht) as (st & Hst & Hin). congruence.
    + destruct (Hlive t Ht) as (st & Hst & _). congruence.
  - cbv zeta.
    assert (Hq : cameraStream (camera (handle p ClickUploadImage)) = None /\
                 cameraActive (camera (handle p ClickUploadImage)) = false /\
                 useCamera (camera (handle p ClickUploadImage)) = false).
    { destruct p as [s c v cv l]. destruct c as [a st ci u er].
      unfold handle, clickUploadImage, stopCamera. cbn [camera cameraActive cameraStream].
      cbn in Hact. destruct a.
      - destruct st; cbn; repeat split.
      - destruct st as [stream|]; [|cbn; repeat split].
        destruct Hact as [_ H]. discriminate H. discriminate. }
    destruct Hq as (Hs & Ha & Hu).
    pose proof (pageStep_consistent p ClickUploadImage Hp) as (Hlive' & _ & _).
    assert (Hcam : camera (pageStep p ClickUploadImage) = camera (handle p ClickUploadImage)).
    { unfold pageStep, commit. split_branches; reflexivity. }
    rewrite Hcam. split; [|now repeat split].
    apply no_element_is_nil. intros t Ht.
    destruct (Hlive' t Ht) as (st & Hst & _). rewrite Hcam in Hst. congruence.
Qed.

Lemma camera_never_leaks_witness :
  let es := [ ClickUseCamera true;
              ClickStartCamera true;
              GetUserMediaSettles (Resolves {| getTracks := [1%nat; 2%nat] |});
              GetUserMediaSettles (Resolves {| getTracks := [3%nat] |});
              OnSession (EvSetTask "tea") ] in
  live (pageExec initialPage es) = [3%nat] /\ cameraConsistent (pageExec initialPage es).
Proof.
  cbv zeta. split; [reflexivity|].
  apply (camera_never_leaks initialPage).
  split; [intros t []|]. split; [split; [discriminate | intros H; now destruct H] |].
  intros H. now destruct H.
Defined.

Lemma camera_released_on_exit_witness :
  let p := pageExec initialPage
             [ ClickUseCamera true;
               GetUserMediaSettles (Resolves {| getTracks := [1%nat; 2%nat] |}) ] in
  live p = [1%nat; 2%nat] /\ live (unmount p) = [] /\
  live (pageStep p ClickUploadImage) = [].
Proof.
  assert (H : cameraConsistent
                (pageExec initialPage
                   [ ClickUseCamera true;
                     GetUserMediaSettles (Resolves {| getTracks := [1%nat; 2%nat] |}) ])).
  { split; [|split].
    - intros t Ht. exists {| getTracks := [1%nat; 2%nat] |}. split; [reflexivity | exact Ht].
    - split; [discriminate | reflexivity].
    - reflexivity. }
  destruct (camera_released_on_exit _ H) as (Hu & Hl & _).
  cbv zeta. split; [reflexivity|]. split; [exact Hu | exact Hl].
Defined.

Lemma length_append (a b : string) :
  String.length (a ++ b)%string = (String.length a + String.length b)%nat.
Proof. induction a as [|c a IH]; cbn; [reflexivity | now rewrite IH]. Qed.

Lemma append_cancel_r (a b s : string) : (a ++ s = b ++ s)%string -> a = b.
Proof.
  revert b. induction a as [|c a IH]; intros [|c' b] H; cbn in H.
  - reflexivity.
  - exfalso. apply (f_equal String.length) in H. cbn in H.
    rewrite length_append in H. lia.
  - exfalso. apply (f_equal String.length) in H. cbn in H.
    rewrite length_append in H. lia.
  - injection H as -> H. f_equal. now apply IH.
Qed.

Lemma decimal_injective (m n : N) : decimal m = decimal n -> m = n.
Proof.
  unfold decimal. intros H.
  apply (f_equal NilEmpty.uint_of_string) in H.
  rewrite !NilEmpty.usu in H. injection H as H.
  apply (f_equal N.of_uint) in H. now rewrite !DecimalN.Unsigned.of_to in H.
Qed.

(** X22: [captureImage] takes a still without stopping the camera.  When
    both preview elements exist and the canvas yields a blob, the same
    file becomes the captured image and the evidence image, and nothing
    else changes: the stream is still held, its tracks still run, the
    camera is still active.  When an element is missing or the blob is
    null, nothing changes at all. *)
Theorem captureImage_effect (p : Page) (blob : bool) (timestamp : N) :
  let p' := captureImage blob timestamp p in
  (video p <> None /\ canvas p = true /\ blob = true ->
   capturedImage (camera p') = Some (capturedFile timestamp) /\
   image (session p') = Some (capturedFile timestamp) /\
   textNote (session p') = textNote (session p) /\
   history (session p') = history (session p) /\
   cameraStream (camera p') = cameraStream (camera p) /\
   cameraActive (camera p') = cameraActive (camera p) /\
   live p' = live p /\ video p' = video p) /\
  (video p = None \/ canvas p = false \/ blob = false -> p' = p).
Proof.
  cbv zeta. unfold captureImage. split.
  - intros (Hv & Hc & ->). rewrite Hc.
    destruct (video p) as [w|] eqn:Ev; [|congruence].
    cbn. repeat split. exact Ev.
  - intros [H | [H | H]]; rewrite H; [reflexivity | |];
      destruct (video p); try reflexivity; destruct (canvas p); reflexivity.
Qed.

Lemma captureImage_effect_witness :
  let p := {| session := Tea.boiled;
              camera := {| cameraActive := true;
                           cameraStream := Some {| getTracks := [1%nat] |};
                           capturedImage := None; useCamera := true;
                           cameraError := "" |};
              video := Some {| srcObject := None |}; canvas := true;
              live := [1%nat]; pendingCamera := 0 |} in
  image (session (captureImage true 1735725900000 p))
    = Some {| fileName := "captured-image-1735725900000.jpg" |} /\
  live (captureImage true 1735725900000 p) = [1%nat] /\
  captureImage false 1735725900000 p = p.
Proof.
  cbv zeta.
  match goal with
  | |- context [captureImage true ?ts ?p] =>
      destruct (captureImage_effect p true ts) as [Hyes _];
      destruct (captureImage_effect p false ts) as [_ Hno]
  end.
  destruct Hyes as (_ & Hi & _ & _ & _ & _ & Hl & _);
    [split; [discriminate | split; reflexivity] |].
  split; [exact Hi|]. split; [exact Hl|]. apply Hno. right. now right.
Defined.

(** X23: captures taken at different times get different files: the
    file name is built from the timestamp and determines it. *)
Theorem capturedFile_distinct (a b : N) :
  a <> b -> capturedFile a <> capturedFile b.
Proof.
  intros Hab H. apply Hab. unfold capturedFile in H. cbn in H. injection H as H.
  apply decimal_injective. now apply append_cancel_r with (s := ".jpg"%string).
Qed.

Lemma capturedFile_distinct_witness :
  fileName (capturedFile 1735725900000) = "captured-image-1735725900000.jpg" /\
  capturedFile 1735725900000 <> capturedFile 1735725900001.
Proof.
  split; [reflexivity|].
  apply (capturedFile_distinct 1735725900000 1735725900001). discriminate.
Defined.

(** X24: what the mode toggles and Retake do to the evidence.  Upload
    Image drops the captured-image preview but keeps the evidence image
    (a photo just taken stays attached) and leaves camera mode; Use
    Camera always detaches the evidence image and, when the camera was
    already active, requests no new stream; Retake clears both the
    preview and the evidence image and keeps the camera running.  None of
    them touches the text note. *)
Theorem toggles_and_evidence (p : Page) (supported : bool) :
  (let p' := handle p ClickUploadImage in
   capturedImage (camera p') = None /\ useCamera (camera p') = false /\
   image (session p') = image (session p) /\
   textNote (session p') = textNote (session p)) /\
  (let p' := handle p (ClickUseCamera supported) in
   image (session p') = None /\ textNote (session p') = textNote (session p) /\
   capturedImage (camera p') = capturedImage (camera p) /\
   (cameraActive (camera p) = true ->
    useCamera (camera p') = true /\ cameraStream (camera p') = cameraStream (camera p) /\
    live p' = live p /\ pendingCamera p' = pendingCamera p)) /\
  (let p' := handle p ClickRetake in
   capturedImage (camera p') = None /\ image (session p') = None /\
   textNote (session p') = textNote (session p) /\
   cameraStream (camera p') = cameraStream (camera p) /\
   cameraActive (camera p') = cameraActive (camera p) /\ live p' = live p).
Proof.
  cbv zeta. destruct p as [s c v cv l pending]. destruct c as [a st ci u er].
  unfold handle, clickUploadImage, clickUseCamera, clickRetake, stopCamera.
  cbn [camera cameraActive cameraStream].
  split; [|split].
  - destruct a, st; cbn; repeat split.
  - destruct a; [cbn; repeat split|].
    destruct supported; cbn -[errorMessage]; repeat split; discriminate.
  - cbn. repeat split.
Qed.

Lemma toggles_and_evidence_witness :
  let p := captureImage true 1735725900000
             {| session := Tea.boiled;
                camera := {| cameraActive := true;
                             cameraStream := Some {| getTracks := [1%nat] |};
                             capturedImage := None; useCamera := true;
                             cameraError := "" |};
                video := Some {| srcObject := None |}; canvas := true;
                live := [1%nat]; pendingCamera := 0 |} in
  image (session (handle p ClickUploadImage))
    = Some {| fileName := "captured-image-1735725900000.jpg" |} /\
  capturedImage (camera (handle p ClickUploadImage)) = None /\
  image (session (handle p (ClickUseCamera true))) = None /\
  live (handle p (ClickUseCamera true)) = [1%nat] /\
  pendingCamera (handle p (ClickUseCamera true)) = 0%nat.
Proof.
  cbv zeta.
  match goal with
  | |- context [handle ?p ClickUploadImage] =>
      destruct (toggles_and_evidence p true)
        as ((Hc & _ & Hi & _) & (Hn & _ & _ & Hkeep) & _)
  end.
  destruct (Hkeep eq_refl) as (_ & _ & Hl & Hp).
  split; [rewrite Hi; reflexivity|]. split; [exact Hc|]. split; [exact Hn|].
  rewrite Hl, Hp. split; reflexivity.
Defined.

(** The two halves of [startCamera] put together are the whole. *)
Lemma startCamera_in_one_piece (p : Page) :
  startCamera NoMediaDevices p = startCamera_call false p /\
  (forall name,
     startCamera (GetUserMediaRejected name) p
     = startCamera_resume (Rejects name) (startCamera_call true p)) /\
  (forall stream,
     startCamera (GetUserMediaResolved stream) p
     = startCamera_resume (Resolves stream) (startCamera_call true p)).
Proof. repeat split. Qed.

(** Two requests that overlap do attach a stream: the first answer mounts
    the video element, the second finds it. *)
Example overlapping_requests_attach_preview :
  let es := [ OnSession (EvSetTask "I want to make tea");
              OnSession (EvStartTask (Response true (Some Tea.started)));
              ClickUseCamera true;
              ClickStartCamera true;
              GetUserMediaSettles (Resolves {| getTracks := [1%nat] |});
              GetUserMediaSettles (Resolves {| getTracks := [2%nat] |}) ] in
  pageReachable_by initialPage es = true /\
  video (pageExec initialPage es)
    = Some {| srcObject := Some {| getTracks := [2%nat] |} |} /\
  live (pageExec initialPage es) = [2%nat].
Proof. cbv zeta. repeat split. Qed.

Lemma pageStep_preview_detached (p : Page) (e : PageEvent) :
  previewDetached p -> atMostOnePending p ->
  pageOffered p e = true ->
  (requestsCamera p e = true -> pendingCamera p = 0%nat) ->
  previewDetached (pageStep p e) /\ atMostOnePending (pageStep p e).
Proof.
  intros [Hact Hsrc] Hone Hoff Hreq.
  assert (Hq : (forall v, video (handle p e) = Some v -> srcObject v = None) /\
               ((0 < pendingCamera (handle p e))%nat ->
                pendingCamera (handle p e) = 1%nat /\
                cameraActive (camera (handle p e)) = false)).
  { destruct p as [s c v cv l pending]. destruct c as [a st ci u er].
    unfold atMostOnePending in Hone.
    cbn [video camera cameraActive pendingCamera] in Hact, Hsrc, Hone.
    destruct e as [e' | | supported | supported | answer | blob ts | ];
      unfold handle; cbn [camera pendingCamera].
    - cbn. split; [exact Hsrc | exact Hone].
    - unfold clickUploadImage, stopCamera. cbn [cameraActive cameraStream].
      destruct a; [|cbn; split; [exact Hsrc | exact Hone]].
      destruct st, v; cbn; (split; [intros w [= <-] || intros w; try discriminate;
                                    try reflexivity |]);
        intros Hp; destruct (Hone Hp) as [_ Ha]; discriminate Ha.
    - cbn [requestsCamera camera cameraActive pendingCamera] in Hreq.
      unfold clickUseCamera. cbn [cameraActive].
      destruct a; [cbn; split; [exact Hsrc | exact Hone]|].
      destruct supported; cbn -[errorMessage].
      + rewrite (Hreq eq_refl). split; [exact Hsrc | intros _; now split].
      + split; [exact Hsrc | exact Hone].
    - cbn [requestsCamera pendingCamera] in Hreq.
      cbn [pageOffered camera session useCamera cameraActive] in Hoff.
      destruct a.
      + rewrite !andb_false_r in Hoff. cbn in Hoff.
        rewrite ?andb_false_r in Hoff. discriminate Hoff.
      + destruct supported; cbn -[errorMessage].
        * rewrite (Hreq eq_refl). split; [exact Hsrc | intros _; now split].
        * split; [exact Hsrc | exact Hone].
    - cbn [pageOffered pendingCamera] in Hoff. rewrite Hoff.
      apply Nat.ltb_lt in Hoff. destruct (Hone Hoff) as [-> ->].
      destruct v as [w|]; [discriminate (Hact ltac:(discriminate))|].
      destruct answer; cbn -[errorMessage]; (split; [discriminate | lia]).
    - unfold captureImage. cbn [video canvas].
      destruct v, cv, blob; cbn; (split; [exact Hsrc | exact Hone]).
    - cbn. split; [exact Hsrc | exact Hone]. }
  destruct Hq as [Hq1 Hq2].
  assert (Hpend : pendingCamera (pageStep p e) = pendingCamera (handle p e))
    by (unfold pageStep, commit; split_branches; reflexivity).
  assert (Hcam : camera (pageStep p e) = camera (handle p e))
    by (unfold pageStep, commit; split_branches; reflexivity).
  split.
  - unfold pageStep, commit, previewDetached. cbn [video camera]. split.
    + intros H.
      match type of H with
      | (if previewShown ?p1 then _ else _) <> None =>
          destruct (previewShown p1) eqn:S; [|contradiction];
          unfold previewShown in S; apply andb_true_iff in S; destruct S as [_ S]
      end.
      exact S.
    + intros w Hw.
      match type of Hw with
      | (if previewShown ?p1 then _ else _) = Some _ =>
          destruct (previewShown p1); [|discriminate Hw];
          assert (Hv : video p1 = video (handle p e)) by (split_branches; reflexivity);
          rewrite Hv in Hw
      end.
      destruct (video (handle p e)) as [w'|] eqn:Ew.
      * injection Hw as <-. now apply Hq1.
      * injection Hw as <-. reflexivity.
  - unfold atMostOnePending. rewrite Hpend, Hcam. exact Hq2.
Qed.

(** X25: with one camera request at a time, the preview never receives
    the stream.  In every page reached from the initial page through
    events the page allows, as long as no camera request is sent while
    another is pending, the video element, whenever it exists, has no
    [srcObject]: the request settles while the camera is still inactive,
    when the element is not rendered, so the assignment through
    [videoRef] finds no element. *)
Theorem preview_never_attached (p : Page) (es : list PageEvent) :
  previewDetached p ->
  atMostOnePending p ->
  oneRequestAtATime p es = true ->
  previewDetached (pageExec p es).
Proof.
  revert p. induction es as [|e es IH]; intros p H Hone Hreach; [exact H|].
  cbn in Hreach. apply andb_true_iff in Hreach. destruct Hreach as [Hoff Hrest].
  apply andb_true_iff in Hoff. destruct Hoff as [Hoff Hreq].
  cbn [pageExec fold_left].
  destruct (pageStep_preview_detached p e H Hone Hoff) as [H' Hone'].
  - intros R. rewrite R in Hreq. now apply Nat.eqb_eq.
  - now apply IH.
Qed.

Lemma preview_never_attached_witness :
  let es := [ OnSession (EvSetTask "I want to make tea");
              OnSession (EvStartTask (Response true (Some Tea.started)));
              ClickUseCamera true;
              GetUserMediaSettles (Resolves {| getTracks := [1%nat] |}) ] in
  let p := pageExec initialPage es in
  cameraActive (camera p) = true /\ live p = [1%nat] /\
  video p = Some {| srcObject := None |} /\ previewDetached p.
Proof.
  cbv zeta. split; [reflexivity|]. split; [reflexivity|]. split; [reflexivity|].
  apply (preview_never_attached initialPage); [| |reflexivity].
  - split; [intros H; now destruct H | discriminate].
  - intros H. cbn in H. lia.
Defined.

(** ** What the page shows *)

(** X26: the history is shown latest first without being reordered in
    the state: after a verification that does not report completion, the
    shown list starts with the entry of that attempt and continues with
    what was shown before. *)
Theorem historyView_latest_first (s : State) (ok : bool) (d : Data) (now : string) :
  missingEvidence s = false ->
  d_done d = false ->
  let s' := run verifyStep (Response ok (Some d)) now s in
  exists e, historyView s' = e :: historyView s /\
            h_step e = currentStep s /\ res_passed (h_result e) = d_passed d.
Proof.
  intros Hev Hdone s'. subst s'. exists (attemptEntry s d now).
  unfold historyView. rewrite history_verifyStep, Hev, Hdone.
  rewrite rev_app_distr. repeat split.
Qed.

Lemma historyView_latest_first_witness :
  let s := withEvidence None "leaves are in" Tea.boiled in
  let s' := run verifyStep
              (Response true (Some (Tea.verdict false "too dark" None None))) "" s in
  exists e, historyView s' = e :: historyView s /\ h_step e = "steep tea" /\
            res_passed (h_result e) = false.
Proof.
  apply (historyView_latest_first (withEvidence None "leaves are in" Tea.boiled) true
           (Tea.verdict false "too dark" None None) ""); reflexivity.
Defined.

Lemma firstAt_element (a : list string) (x : string) (i : Z) :
  firstAt a x i -> elementOrEmpty a i = x.
Proof. intros [H _]. unfold elementOrEmpty. now rewrite H. Qed.

(** X27: when the cached currentStep agrees with the steps list.  After
    a verify response that reports completion, carries a nextSteps list,
    or passed with no usable nextStep or with one found in the local
    list, currentStep is the element of steps at currentIndex (empty
    outside the list), whatever the state was before.  A failed
    verification without a nextSteps list keeps the agreement it found.
    Only the fallback path, where the named step is not in the list, can
    break it. *)
Theorem verifyStep_step_cache (s : State) (ok : bool) (d : Data) (now : string) :
  missingEvidence s = false ->
  let s' := run verifyStep (Response ok (Some d)) now s in
  (d_done d = true \/ d_nextSteps d <> None \/
   (d_passed d = true /\
    (d_nextStep d = None \/ d_nextStep d = Some "" \/
     exists nextStep, d_nextStep d = Some nextStep /\ In nextStep (steps s))) ->
   stepCacheCoherent s') /\
  (d_done d = false -> d_passed d = false -> d_nextSteps d = None ->
   stepCacheCoherent s -> stepCacheCoherent s').
Proof.
  intros Hev s'. subst s'. verify_steps Hev. unfold stepCacheCoherent. split.
  - intros H. destruct (d_done d) eqn:Hdone; [destruct (d_passed d); reflexivity|].
    destruct H as [H | [H | H]]; [discriminate H | |].
    + destruct (d_nextSteps d) as [l|]; [|congruence].
      rewrite JSFacts.orElse_get_empty.
      destruct (d_passed d); cbn -[elementOrEmpty Z.add]; reflexivity.
    + destruct H as [Hpass Hnext]. rewrite Hpass.
      destruct (d_nextSteps d) as [l|];
        [rewrite JSFacts.orElse_get_empty; cbn -[elementOrEmpty Z.add]; reflexivity|].
      rewrite JSFacts.orElse_get_empty.
      destruct Hnext as [-> | [-> | (n & -> & Hin)]];
        [cbn -[elementOrEmpty Z.add]; reflexivity ..|].
      destruct (JS.truthy n); [|cbn -[elementOrEmpty Z.add]; reflexivity].
      destruct (JSFacts.indexOf_present _ _ Hin) as [Hge Hfirst].
      rewrite Hge. cbn -[elementOrEmpty Z.add JS.indexOf].
      symmetry. now apply firstAt_element.
  - intros Hdone Hpass Hlist Hco. rewrite Hdone, Hpass, Hlist.
    cbn -[elementOrEmpty Z.add]. exact Hco.
Qed.

Lemma verifyStep_step_cache_witness :
  let s := withEvidence None "leaves are in" Tea.boiled in
  stepCacheCoherent
    (run verifyStep (Response true (Some (Tea.verdict true "ok" (Some "boil water") None)))
       "" s) /\
  stepCacheCoherent
    (run verifyStep (Response true (Some (Tea.verdict false "too dark" None None))) "" s).
Proof.
  cbv zeta. split.
  - destruct (verifyStep_step_cache (withEvidence None "leaves are in" Tea.boiled) true
                (Tea.verdict true "ok" (Some "boil water") None) "") as [H _];
      [reflexivity|].
    apply H. right. right. split; [reflexivity|]. right. right.
    exists "boil water". split; [reflexivity | now left].
  - destruct (verifyStep_step_cache (withEvidence None "leaves are in" Tea.boiled) true
                (Tea.verdict false "too dark" None None) "") as [_ H];
      [reflexivity|].
    apply H; reflexivity.
Defined.
